(** * inhouse_bot: the statistics commands ([inhouse_bot/cogs/stats_cog.py])

    A shallow embedding of the [StatsCog] commands [history], [rank],
    [ranking], [mmr], [mmr_history] and [champions_stats], and the
    properties of their ordering, grouping, filtering and error behaviour.

    Conventions of the embedding:
    - a table of the store is the list of its rows in the order in which
      the session yields them; SQL fixes no order for a query without
      [ORDER BY], so this order is an input of the model, and the rows of
      a join come in the order of the participant rows;
    - date-times are seconds since the epoch, ratings (the [mmr] columns)
      and fuzzy-match scores are integers: the commands only compare,
      negate and copy them;
    - a Python dict is an association list in insertion order;
    - [ctx.send] and the execution of a session query are events of a
      trace, in program order. *)

From Stdlib Require Import ZArith NArith List String Ascii Bool Lia.
From Stdlib Require Import Sorted Permutation DecimalString QArith.
From Stdlib Require Import DecimalPos DecimalN.
Import ListNotations.
Open Scope Z_scope.

(** ** Python built-ins used by the cog *)

Module Py.

Section Sorted.
Context {A K : Type} (key : A -> K) (leb : K -> K -> bool).

(** [x] comes from the left of the elements already placed, so it stops
    in front of the first element whose key is not smaller: equal keys
    keep the order of the input, as Python's [sorted] guarantees. *)
Fixpoint insert (x : A) (l : list A) : list A :=
  match l with
  | [] => [x]
  | y :: l' =>
      if leb (key x) (key y) then x :: y :: l' else y :: insert x l'
  end.

(** [sorted(l, key=key)] *)
Fixpoint sorted (l : list A) : list A :=
  match l with
  | [] => []
  | x :: l' => insert x (sorted l')
  end.
End Sorted.

(** [enumerate(l)] counting from [n] *)
Fixpoint enumerate_from {A : Type} (n : N) (l : list A) : list (N * A) :=
  match l with
  | [] => []
  | x :: l' => (n, x) :: enumerate_from (N.succ n) l'
  end.

Definition enumerate {A : Type} (l : list A) : list (N * A) :=
  enumerate_from 0%N l.

Definition upper (c : ascii) : ascii :=
  let n := N_of_ascii c in
  if ((97 <=? n) && (n <=? 122))%N then ascii_of_N (n - 32) else c.

Definition lower (c : ascii) : ascii :=
  let n := N_of_ascii c in
  if ((65 <=? n) && (n <=? 90))%N then ascii_of_N (n + 32) else c.

Fixpoint lowercase (s : string) : string :=
  match s with
  | EmptyString => EmptyString
  | String c s' => String (lower c) (lowercase s')
  end.

(** [str.capitalize()] on ASCII text *)
Definition capitalize (s : string) : string :=
  match s with
  | EmptyString => EmptyString
  | String c s' => String (upper c) (lowercase s')
  end.

(** [d.get(k)]: the value stored under [k], if any *)
Fixpoint get {V : Type} (k : string) (d : list (string * V)) : option V :=
  match d with
  | [] => None
  | (k', v) :: d' => if (k' =? k)%string then Some v else get k d'
  end.

(** [f] applied in place to [d[k]] of a [defaultdict]: a missing key is
    first inserted, at the end, with the default value. *)
Fixpoint update_default {V : Type} (default : V) (f : V -> V)
    (k : string) (d : list (string * V)) : list (string * V) :=
  match d with
  | [] => [(k, f default)]
  | (k', v) :: d' =>
      if (k' =? k)%string then (k', f v) :: d'
      else (k', v) :: update_default default f k d'
  end.

Definition keys {V : Type} (d : list (string * V)) : list string :=
  map fst d.

End Py.

(** ** The [inflect] engine *)

Module Inflect.

(** The suffix table [nth] of [inflect]: looked up at [n % 100] first
    (which holds 11, 12 and 13), then at [n % 10]. *)
Definition suffix (n : N) : string :=
  let h := (n mod 100)%N in
  if ((h =? 11) || (h =? 12) || (h =? 13))%N then "th"
  else match (n mod 10)%N with
       | 1%N => "st"
       | 2%N => "nd"
       | 3%N => "rd"
       | _ => "th"
       end.

(** [engine.ordinal(n)] for a count [n]: "1st", "2nd", "10th", ... *)
Definition ordinal (n : N) : string :=
  (NilZero.string_of_uint (N.to_uint n) ++ suffix n)%string.

End Inflect.

(** ** The rows of the store *)

Definition Time := Z.

Module Game.
Record t := { id : Z; date : Time; winner : string }.
End Game.

Module GameParticipant.
Record t := {
  game_id : Z;
  player_id : Z;
  role : string;
  champion_id : Z;
  team : string;
  mmr : Z
}.
End GameParticipant.

Module PlayerRating.
Record t := { player_id : Z; role : string; mmr : Z }.
End PlayerRating.

Module Player.
(** [ratings] is the mapping of the player's rating rows by role. *)
Record t := {
  discord_id : Z;
  name : string;
  ratings : list (string * PlayerRating.t)
}.
End Player.

Module Session.
Record t := {
  games : list Game.t;
  participants : list GameParticipant.t;
  player_ratings : list PlayerRating.t
}.
End Session.

(** ** What a command sends *)

(** A table cell. [CFixed2 x] is [f'{x:.2f}'] of the rating [x] and
    [CPercent q] is [f'{q:.2f}%'] of the ratio [q]; the digits are the
    presentation layer's. *)
Inductive cell :=
| CStr (s : string)
| CInt (z : Z)
| CNone
| CDay (d : Z)
| CFixed2 (x : Z)
| CPercent (q : Q).

Definition table := list (list cell).

Inductive message :=
| role_not_understood
| Tabulate (tb : table)
| File (lines : list (list Time * list Z)) (legend : list string)
       (title : string).

(** The two queries the cog writes itself: the rating rows of a role, and
    the games of a player after a date. *)
Inductive query :=
| RatingsOfRole (role : string)
| GamesOfPlayer (player_id : Z) (date_start : Time).

Inductive event :=
| SessionQuery (q : query)
| CtxSend (m : message).

Inductive error := KeyError | ZeroDivisionError | ArgumentError.

Definition result (A : Type) := (error + A)%type.

Definition ret {A : Type} (x : A) : result A := inr x.
Definition raise {A : Type} (e : error) : result A := inl e.
Definition bind {A B : Type} (m : result A) (f : A -> result B) : result B :=
  match m with
  | inl e => inl e
  | inr x => f x
  end.

Notation "x <- m ;; k" := (bind m (fun x => k))
  (at level 61, m at next level, right associativity).

Fixpoint mapM {A B : Type} (f : A -> result B) (l : list A)
    : result (list B) :=
  match l with
  | [] => ret []
  | x :: l' => y <- f x ;; ys <- mapM f l' ;; ret (y :: ys)
  end.

(** ** Running a command

    A command runs in a world made of the system clock and of the
    [matplotlib.pyplot] current figure, both of which outlive the call.
    [clock k] is the [k]-th reading of the system time and [tick] counts
    the readings made so far; [figure] holds the lines drawn by
    [plt.plot] (the glow decoration is not modelled). A run yields the
    world it leaves, the events it performed in program order, and either
    the exception that ended it or its value. *)

Record world := { tick : nat; figure : list (list Time * list Z) }.

Definition M (A : Type) := world -> world * list event * result A.

Definition mret {A : Type} (x : A) : M A := fun w => (w, [], inr x).

Definition mbind {A B : Type} (m : M A) (f : A -> M B) : M B :=
  fun w =>
    match m w with
    | (w1, t1, inl e) => (w1, t1, inl e)
    | (w1, t1, inr x) =>
        match f x w1 with
        | (w2, t2, r) => (w2, t1 ++ t2, r)
        end
    end.

Notation "x <-- m ;; k" := (mbind m (fun x => k))
  (at level 61, m at next level, right associativity).
Notation "m ;;; k" := (mbind m (fun _ => k))
  (at level 61, right associativity).

Definition lift {A : Type} (r : result A) : M A := fun w => (w, [], r).

Definition emit (e : event) : M unit := fun w => (w, [e], inr tt).

(** [await ctx.send(...)] *)
Definition ctx_send (m : message) : M unit := emit (CtxSend m).

(** [d[k]] on a plain mapping *)
Definition getitem {V : Type} (k : string) (d : list (string * V))
    : result V :=
  match Py.get k d with
  | Some v => ret v
  | None => raise KeyError
  end.

(** The trace and the outcome of a run. *)
Definition trace {A : Type} (r : world * list event * result A)
    : list event := snd (fst r).
Definition outcome {A : Type} (r : world * list event * result A)
    : result A := snd r.
Definition world_after {A : Type} (r : world * list event * result A)
    : world := fst (fst r).

(** ** The statistics returned by the [Player] methods *)

Module RoleStats.
Record t := { games : Z; wins : Z }.
End RoleStats.

Module ChampionStats.
Record t := { role : string; games : Z; wins : Z }.
End ChampionStats.

(** The value of [date_start] once the line
    [dateparser.parse(date_start) if date_start else date_start] has run:
    the argument itself when it is false ([None] or the empty text), what
    [dateparser] made of it otherwise ([None] for a text it cannot
    read). *)
Inductive date_value :=
| Falsy (date_start : option string)
| Parsed (d : option Time).

(** ** The commands *)

Module StatsCog.

(** One curve of the rating history: [{'dates': [...], 'mmr': [...]}]. *)
Record series := { dates : list Time; mmr_values : list Z }.

Definition empty_series : series := {| dates := []; mmr_values := [] |}.

Definition append_date (d : Time) (s : series) : series :=
  {| dates := dates s ++ [d]; mmr_values := mmr_values s |}.

Definition append_mmr (m : Z) (s : series) : series :=
  {| dates := dates s; mmr_values := mmr_values s ++ [m] |}.

Section Commands.

(** [self.bot.lit.get_name] *)
Variable get_name : Z -> option string.
(** [rating.player.name], by the player's identifier *)
Variable player_name : Z -> string.
(** [rating.get_games(self.bot.session)] *)
Variable get_games : PlayerRating.t -> Z.
(** [rating.get_rank(self.bot.session)] *)
Variable get_rank : PlayerRating.t -> N.
(** [process.extractOne]: the best choice and its score *)
Variable extractOne : string -> list string -> string * Z.
(** [roles_list] *)
Variable roles_list : list string.
(** [dateparser.parse] of a text read at a given time *)
Variable dateparser_parse : Time -> string -> option Time.
(** the readings of the system clock *)
Variable clock : nat -> Time.
(** [player.get_roles_stats(self.bot.session, date_start)] *)
Variable get_roles_stats :
  Player.t -> Session.t -> date_value -> list (string * RoleStats.t).
(** [player.get_champions_stats(self.bot.session, date_start)] *)
Variable get_champions_stats :
  Player.t -> Session.t -> date_value -> list (Z * ChampionStats.t).

(** *** Dates *)

(** A reading of the system clock. *)
Definition now : M Time :=
  fun w =>
    ({| tick := S (tick w); figure := figure w |}, [],
     inr (clock (tick w))).

(** [dateparser.parse(text)], relative to the time of the call. *)
Definition parse (text : string) : M (option Time) :=
  t <-- now ;; mret (dateparser_parse t text).

(** [dateparser.parse(date_start) if date_start else date_start] *)
Definition resolve (date_start : option string) : M date_value :=
  match date_start with
  | Some text =>
      if (text =? "")%string then mret (Falsy date_start)
      else d <-- parse text ;; mret (Parsed d)
  | None => mret (Falsy date_start)
  end.

(** *** history *)

(** [name or 'Unknown'] *)
Definition or_unknown (name : option string) : string :=
  match name with
  | Some s => if (s =? "")%string then "Unknown" else s
  | None => "Unknown"
  end.

(** ['Win' if game.winner == participant.team else 'Loss'] *)
Definition outcome_of (game : Game.t) (participant : GameParticipant.t)
    : string :=
  if (Game.winner game =? GameParticipant.team participant)%string
  then "Win" else "Loss".

Definition history_row (gp : Game.t * GameParticipant.t) : list cell :=
  let '(game, participant) := gp in
  [CInt (Game.id game);
   CDay (Game.date game / 86400);
   CStr (GameParticipant.role participant);
   CStr (or_unknown (get_name (GameParticipant.champion_id participant)));
   CStr (outcome_of game participant)].

Definition history_table (games_list : list (Game.t * GameParticipant.t))
    : table :=
  [CStr "Game ID"; CStr "Date"; CStr "Role"; CStr "Champion";
   CStr "Result"] :: map history_row games_list.

(** Whether the [Result] column of a row reads ['Win']. *)
Definition reads_win (row : list cell) : bool :=
  match nth 4 row CNone with
  | CStr r => (r =? "Win")%string
  | _ => false
  end.

(** [games_list] is what [player.get_latest_games] returned. *)
Definition history (games_list : list (Game.t * GameParticipant.t))
    : M unit :=
  ctx_send (Tabulate (history_table games_list)).

(** *** rank *)

(** The rows before sorting; [player.ratings[role]] for a key [role] of
    the mapping is the value stored with it. *)
Definition rank_row (kv : string * PlayerRating.t) : string * string :=
  let rating := snd kv in
  (Py.capitalize (PlayerRating.role rating),
   Inflect.ordinal (get_rank rating)).

Definition rank_rows (player : Player.t) : list (string * string) :=
  map rank_row (Player.ratings player).

(** [sorted(table, key=lambda x: x[1])] *)
Definition rank_sorted (player : Player.t) : list (string * string) :=
  Py.sorted snd String.leb (rank_rows player).

(** For comparison only, not in the source: the rows as a sort by the
    rank itself, as a number, would leave them. *)
Definition rank_sorted_by_number (player : Player.t)
    : list (string * string) :=
  map rank_row
    (Py.sorted (fun kv : string * PlayerRating.t => get_rank (snd kv))
       N.leb (Player.ratings player)).

Definition rank_table (player : Player.t) : table :=
  [CStr "Role"; CStr "Rank"]
    :: map (fun x => [CStr (fst x); CStr (snd x)]) (rank_sorted player).

Definition rank (player : Player.t) : M unit :=
  ctx_send (Tabulate (rank_table player)).

(** *** ranking *)

(** [query(PlayerRating).filter(role == clean_role)
      .order_by(- mmr).limit(20)]: the rows of the role, ordered by
    ascending [- mmr], the first twenty. The query names no other key:
    rows of equal rating are left as the engine finds them, which the
    model takes to be the order in which the table yields them. *)
Definition order_by_mmr_desc (rows : list PlayerRating.t)
    : list PlayerRating.t :=
  Py.sorted (fun r => - PlayerRating.mmr r) Z.leb rows.

Definition role_ranking (s : Session.t) (clean_role : string)
    : list PlayerRating.t :=
  firstn 20
    (order_by_mmr_desc
       (filter (fun r => (PlayerRating.role r =? clean_role)%string)
               (Session.player_ratings s))).

Definition ranking_row (x : N * PlayerRating.t) : list cell :=
  let '(rank, rating) := x in
  [CStr (Inflect.ordinal (rank + 1));
   CStr (player_name (PlayerRating.player_id rating));
   CFixed2 (PlayerRating.mmr rating);
   CInt (get_games rating)].

Definition ranking_table (s : Session.t) (clean_role : string) : table :=
  [CStr "Rank"; CStr "Name"; CStr "MMR"; CStr "Games"]
    :: map ranking_row (Py.enumerate (role_ranking s clean_role)).

Definition ranking (s : Session.t) (role : string) : M unit :=
  let '(clean_role, score) := extractOne role roles_list in
  (if score <? 80 then ctx_send role_not_understood else mret tt) ;;;
  emit (SessionQuery (RatingsOfRole clean_role)) ;;;
  ctx_send (Tabulate (ranking_table s clean_role)).

(** *** mmr *)

(** [wins / games * 100]: true division raises on a zero divisor. *)
Definition winrate (wins games : Z) : result Q :=
  if games =? 0 then raise ZeroDivisionError
  else ret (inject_Z wins / inject_Z games * 100)%Q.

(** The elements of a row are evaluated from left to right: the rating
    lookup comes before the division. *)
Definition mmr_row (player : Player.t) (kv : string * RoleStats.t)
    : result (string * Z * Z * Q) :=
  let '(role, st) := kv in
  rating <- getitem role (Player.ratings player) ;;
  rate <- winrate (RoleStats.wins st) (RoleStats.games st) ;;
  ret (Py.capitalize role, PlayerRating.mmr rating, RoleStats.games st,
       rate).

Definition mmr_rows (player : Player.t)
    (stats : list (string * RoleStats.t))
    : result (list (string * Z * Z * Q)) :=
  mapM (mmr_row player) stats.

Definition mmr_cells (x : string * Z * Z * Q) : list cell :=
  let '(role, rating, games, rate) := x in
  [CStr role; CFixed2 rating; CInt games; CPercent rate].

(** The table built from the statistics, sorted and sent (lines 111 to
    123). *)
Definition send_roles_stats (player : Player.t)
    (stats : list (string * RoleStats.t)) : M unit :=
  rows <-- lift (mmr_rows player stats) ;;
  ctx_send
    (Tabulate
       ([CStr "Role"; CStr "MMR"; CStr "Games"; CStr "Winrate"]
          :: map mmr_cells
               (Py.sorted (fun x => - snd (fst x)) Z.leb rows))).

(** [player] is what [get_player] returned. *)
Definition mmr (s : Session.t) (player : Player.t)
    (date_start : option string) : M unit :=
  date <-- resolve date_start ;;
  send_roles_stats player (get_roles_stats player s date).

(** *** champions_stats *)

Definition champion_row (kv : Z * ChampionStats.t)
    : result (option string * string * Z * Q) :=
  let '(champion_id, st) := kv in
  rate <- winrate (ChampionStats.wins st) (ChampionStats.games st) ;;
  ret (get_name champion_id, Py.capitalize (ChampionStats.role st),
       ChampionStats.games st, rate).

Definition champion_rows (stats : list (Z * ChampionStats.t))
    : result (list (option string * string * Z * Q)) :=
  mapM champion_row stats.

Definition champion_cells (x : option string * string * Z * Q)
    : list cell :=
  let '(name, role, games, rate) := x in
  [match name with Some n => CStr n | None => CNone end;
   CStr role; CInt games; CPercent rate].

(** The table built from the statistics, sorted and sent (lines 177 to
    189). *)
Definition send_champions_stats (stats : list (Z * ChampionStats.t))
    : M unit :=
  rows <-- lift (champion_rows stats) ;;
  ctx_send
    (Tabulate
       ([CStr "Champion"; CStr "Role"; CStr "Games"; CStr "Winrate"]
          :: map champion_cells
               (Py.sorted (fun x => - snd (fst x)) Z.leb rows))).

(** [player] is what [get_player] returned. *)
Definition champions_stats (s : Session.t) (player : Player.t)
    (date_start : option string) : M unit :=
  date <-- resolve date_start ;;
  send_champions_stats (get_champions_stats player s date).

(** *** mmr_history *)

(** [plt.plot(dates, mmr)] draws one more line in the current figure. *)
Definition plt_plot (line : list Time * list Z) : M unit :=
  fun w =>
    ({| tick := tick w; figure := figure w ++ [line] |}, [], inr tt).

(** [plt.savefig]: the figure as it stands. *)
Definition plt_savefig : M (list (list Time * list Z)) :=
  fun w => (w, [], inr (figure w)).

(** [query(Game, GameParticipant).join(GameParticipant)]: every participant
    row with its game, in the order in which the participant rows are
    yielded. *)
Definition join (games : list Game.t)
    (participants : list GameParticipant.t)
    : list (Game.t * GameParticipant.t) :=
  flat_map
    (fun p =>
       map (fun g => (g, p))
           (filter (fun g => GameParticipant.game_id p =? Game.id g)
                   games))
    participants.

(** [.filter(GameParticipant.player_id == player.discord_id)
     .filter(Game.date > date_start)] *)
Definition participants_query (s : Session.t) (player : Player.t)
    (date_start : Time) : list (Game.t * GameParticipant.t) :=
  filter (fun gp => Game.date (fst gp) >? date_start)
    (filter
       (fun gp =>
          GameParticipant.player_id (snd gp) =? Player.discord_id player)
       (join (Session.games s) (Session.participants s))).

(** The body of the first loop: the game's date, then the rating
    snapshot, appended to the role's entry of the [defaultdict]. *)
Definition record_game (h : list (string * series))
    (gp : Game.t * GameParticipant.t) : list (string * series) :=
  let '(game, participant) := gp in
  let role := GameParticipant.role participant in
  Py.update_default empty_series
    (append_mmr (GameParticipant.mmr participant)) role
    (Py.update_default empty_series (append_date (Game.date game))
       role h).

Definition group_by_role (rows : list (Game.t * GameParticipant.t))
    : list (string * series) :=
  fold_left record_game rows [].

(** The second loop, over the roles of the dict in insertion order:
    the entry of each role gets the time of the moment, then the
    player's current rating, and is plotted. [mmr_history[role]] for a
    key [role] of the dict is the value stored with it, updated in
    place. The legend is the list of the keys. *)
Fixpoint plot_roles (ratings : list (string * PlayerRating.t))
    (items : list (string * series)) : M (list (string * series)) :=
  match items with
  | [] => mret []
  | (role, s) :: items' =>
      t <-- now ;;
      rating <-- lift (getitem role ratings) ;;
      let s' := append_mmr (PlayerRating.mmr rating) (append_date t s) in
      plt_plot (dates s', mmr_values s') ;;;
      rest <-- plot_roles ratings items' ;;
      mret ((role, s') :: rest)
  end.

(** The rating history of the player after the resolved bound. *)
Definition rating_history (s : Session.t) (player : Player.t)
    (date_start : Time) : M (list (string * series)) :=
  emit (SessionQuery (GamesOfPlayer (Player.discord_id player)
                                    date_start)) ;;;
  plot_roles (Player.ratings player)
    (group_by_role (participants_query s player date_start)).

(** An absent or empty [date_start] is false and stands for one month
    ago. A bound that [dateparser] could not read is [None], which the
    [>] of the filter refuses with [ArgumentError]. *)
Definition mmr_history (s : Session.t) (player : Player.t)
    (date_start : option string) : M unit :=
  bound <-- parse (match date_start with
                   | Some text =>
                       if (text =? "")%string then "one month ago"
                       else text
                   | None => "one month ago"
                   end) ;;
  match bound with
  | None => lift (raise ArgumentError)
  | Some d =>
      h <-- rating_history s player d ;;
      lines <-- plt_savefig ;;
      ctx_send
        (File lines (Py.keys h)
           ("MMR variation in the last month for " ++ Player.name player))
  end.

End Commands.

End StatsCog.

(** ** Notions used to state the properties of the rating history *)

Module Rows.

(** The rows of a query result that were played in a role. *)
Definition of_role (role : string)
    (rows : list (Game.t * GameParticipant.t))
    : list (Game.t * GameParticipant.t) :=
  filter (fun gp => (GameParticipant.role (snd gp) =? role)%string) rows.

Definition game_dates (rows : list (Game.t * GameParticipant.t))
    : list Time :=
  map (fun gp => Game.date (fst gp)) rows.

Definition snapshots (rows : list (Game.t * GameParticipant.t)) : list Z :=
  map (fun gp => GameParticipant.mmr (snd gp)) rows.

(** A curve continued with the points of some rows. *)
Definition extend (s : StatsCog.series)
    (rows : list (Game.t * GameParticipant.t)) : StatsCog.series :=
  {| StatsCog.dates := StatsCog.dates s ++ game_dates rows;
     StatsCog.mmr_values := StatsCog.mmr_values s ++ snapshots rows |}.

(** The number of games over all the groups of a dict. *)
Definition total_games (h : list (string * StatsCog.series)) : nat :=
  list_sum (map (fun kv => List.length (StatsCog.dates (snd kv))) h).

(** Whether a participant row is a row of the player in a game dated after
    the bound. *)
Definition qualifies (s : Session.t) (player : Player.t) (bound : Time)
    (p : GameParticipant.t) : bool :=
  (GameParticipant.player_id p =? Player.discord_id player)
  && existsb
       (fun g =>
          (GameParticipant.game_id p =? Game.id g) && (Game.date g >? bound))
       (Session.games s).

(** The curves of a dict, each closed by the clock reading of its turn,
    counted from the [k]-th, and by the rating of its role (0 where the
    mapping has none, a case the statements leave out). *)
Fixpoint closed (clock : nat -> Time)
    (ratings : list (string * PlayerRating.t)) (k : nat)
    (items : list (string * StatsCog.series))
    : list (string * StatsCog.series) :=
  match items with
  | [] => []
  | (role, s) :: items' =>
      (role,
       StatsCog.append_mmr
         (match Py.get role ratings with
          | Some rating => PlayerRating.mmr rating
          | None => 0
          end)
         (StatsCog.append_date (clock k) s))
        :: closed clock ratings (S k) items'
  end.

Definition line_of (kv : string * StatsCog.series) : list Time * list Z :=
  (StatsCog.dates (snd kv), StatsCog.mmr_values (snd kv)).

(** The player has a rating for the role of each of the rows. *)
Definition rated_for (player : Player.t)
    (rows : list (Game.t * GameParticipant.t)) : Prop :=
  forall game participant,
    In (game, participant) rows ->
    Py.get (GameParticipant.role participant) (Player.ratings player)
    <> None.

(** The rows of a query result stand in the order of the dates of their
    games. *)
Definition chronological (rows : list (Game.t * GameParticipant.t))
    : Prop :=
  StronglySorted
    (fun a b : Game.t * GameParticipant.t =>
       Game.date (fst a) <= Game.date (fst b))
    rows.

(** No game of the store is dated after a clock reading from the [k]-th
    on. *)
Definition played_before (clock : nat -> Time) (k : nat) (s : Session.t)
    : Prop :=
  forall g j, In g (Session.games s) -> (k <= j)%nat ->
              Game.date g <= clock j.

(** A curve without its last point. *)
Definition past (s : StatsCog.series) : list Time * list Z :=
  (removelast (StatsCog.dates s), removelast (StatsCog.mmr_values s)).

(** All of a curve but the date of its last point: its role, its earlier
    points and its last rating. *)
Definition timeless (kv : string * StatsCog.series)
    : string * (list Time * list Z) * Z :=
  (fst kv, past (snd kv), last (StatsCog.mmr_values (snd kv)) 0).

End Rows.

(** ** The aggregation behind the statistics *)

Module Aggregation.

(** Whether the participant of a row won the game of the row. *)
Definition won (gp : Game.t * GameParticipant.t) : bool :=
  (Game.winner (fst gp) =? GameParticipant.team (snd gp))%string.

(** Modelled from the spec: one more game in a group, and one more win
    when the team of the row is the winner of its game (section 4.1; the
    counting code is not under src/). *)
Definition count (gp : Game.t * GameParticipant.t) (st : RoleStats.t)
    : RoleStats.t :=
  {| RoleStats.games := RoleStats.games st + 1;
     RoleStats.wins := RoleStats.wins st + (if won gp then 1 else 0) |}.

Definition no_game : RoleStats.t :=
  {| RoleStats.games := 0; RoleStats.wins := 0 |}.

(** A group with the games and wins of some more rows. *)
Definition tally (st : RoleStats.t)
    (rows : list (Game.t * GameParticipant.t)) : RoleStats.t :=
  {| RoleStats.games := RoleStats.games st + Z.of_nat (List.length rows);
     RoleStats.wins :=
       RoleStats.wins st + Z.of_nat (List.length (filter won rows)) |}.

Section Grouping.
Context {K : Type} (eqb : K -> K -> bool)
  (key : Game.t * GameParticipant.t -> K).

Fixpoint lookup (k : K) (d : list (K * RoleStats.t)) : option RoleStats.t :=
  match d with
  | [] => None
  | (k', st) :: d' => if eqb k' k then Some st else lookup k d'
  end.

(** Modelled from the spec: the group of the row, looked up or inserted
    empty, then counted (section 9 of the spec; the grouping code is not
    under src/). *)
Fixpoint count_in (gp : Game.t * GameParticipant.t)
    (d : list (K * RoleStats.t)) : list (K * RoleStats.t) :=
  match d with
  | [] => [(key gp, count gp no_game)]
  | (k', st) :: d' =>
      if eqb k' (key gp) then (k', count gp st) :: d'
      else (k', st) :: count_in gp d'
  end.

(** Modelled from the spec: the grouping of [Player.get_roles_stats] and
    [Player.get_champions_stats], which are not under src/. Section 4.1
    has them scan the qualifying rows of the player, group them by role
    (resp. by character) and compute for each group [games = count] and
    [wins = count where team == game.winner]; a group exists only once a
    row falls in it. *)
Definition aggregate (rows : list (Game.t * GameParticipant.t))
    : list (K * RoleStats.t) :=
  fold_left (fun d gp => count_in gp d) rows [].
End Grouping.

(** Modelled from the spec: [aggregate_by_role] of section 4.1, the
    grouping by role ([Player.get_roles_stats] is not under src/). *)
Definition aggregate_by_role (rows : list (Game.t * GameParticipant.t))
    : list (string * RoleStats.t) :=
  aggregate String.eqb (fun gp => GameParticipant.role (snd gp)) rows.

(** Modelled from the spec: the games and wins of [aggregate_by_character]
    of section 4.1, the grouping by character
    ([Player.get_champions_stats] is not under src/). *)
Definition aggregate_by_character
    (rows : list (Game.t * GameParticipant.t)) : list (Z * RoleStats.t) :=
  aggregate Z.eqb (fun gp => GameParticipant.champion_id (snd gp)) rows.

(** The games and wins of some rows, as the history shows them: a win is
    a row whose [Result] column reads ['Win']. *)
Definition shown (get_name : Z -> option string)
    (rows : list (Game.t * GameParticipant.t)) : RoleStats.t :=
  {| RoleStats.games := Z.of_nat (List.length rows);
     RoleStats.wins :=
       Z.of_nat
         (List.length
            (filter StatsCog.reads_win
               (map (StatsCog.history_row get_name) rows))) |}.

End Aggregation.

(** ** Notions used to state the shape of the tables *)

Module Shape.

(** The cells of a column of a table, under its header row. *)
Definition column (i : nat) (tb : table) : list cell :=
  map (fun row => nth i row CNone) (tl tb).

(** The ordinals of 1 to [n]. *)
Definition ordinals (n : nat) : list string :=
  map (fun i => Inflect.ordinal (N.of_nat i)) (seq 1 n).

(** The number of decimal digits of a count. *)
Definition digits (n : N) : nat :=
  String.length (NilZero.string_of_uint (N.to_uint n)).

(** The distinct texts of a list, in the order of their first
    occurrence. *)
Definition first_seen (l : list string) : list string :=
  rev (nodup string_dec (rev l)).

(** The header and the cells of a row of the table of [rank]. *)
Definition rank_header : list cell := [CStr "Role"; CStr "Rank"].

Definition rank_cells (x : string * string) : list cell :=
  [CStr (fst x); CStr (snd x)].

(** The Python integer a cell holds, zero for another kind of cell. *)
Definition int_of (c : cell) : Z :=
  match c with
  | CInt z => z
  | _ => 0
  end.

(** The roles of the rows of a query, row by row. *)
Definition roles (rows : list (Game.t * GameParticipant.t)) : list string :=
  map (fun gp => GameParticipant.role (snd gp)) rows.

(** The text [mmr_history] gives to [dateparser] for its bound. *)
Definition bound_text (date_start : option string) : string :=
  match date_start with
  | Some text => if (text =? "")%string then "one month ago" else text
  | None => "one month ago"
  end.

(** The title of the figure of a player. *)
Definition title (player : Player.t) : string :=
  "MMR variation in the last month for " ++ Player.name player.

(** The world after one reading of the clock. *)
Definition ticked (w : world) : world :=
  {| tick := S (tick w); figure := figure w |}.

(** What [date_start] becomes in a world, and the world it leaves: the
    clock is read when, and only when, there is a text to parse. *)
Definition resolved (dateparser_parse : Time -> string -> option Time)
    (clock : nat -> Time) (date_start : option string) (w : world)
    : date_value :=
  match date_start with
  | Some text =>
      if (text =? "")%string then Falsy date_start
      else Parsed (dateparser_parse (clock (tick w)) text)
  | None => Falsy date_start
  end.

(** The statistics a command gets from the player for its date. *)
Definition stats_for {A : Type}
    (get_stats : Player.t -> Session.t -> date_value -> A)
    (dateparser_parse : Time -> string -> option Time)
    (clock : nat -> Time) (s : Session.t) (player : Player.t)
    (date_start : option string) (w : world) : A :=
  get_stats player s (resolved dateparser_parse clock date_start w).

Definition after_resolve (date_start : option string) (w : world)
    : world :=
  match date_start with
  | Some text => if (text =? "")%string then w else ticked w
  | None => w
  end.

End Shape.

(** ** Sample stores and collaborators *)

Module Sample.

Definition rating_a : PlayerRating.t :=
  {| PlayerRating.player_id := 1; PlayerRating.role := "jungle";
     PlayerRating.mmr := 1500 |}.

Definition rating_b : PlayerRating.t :=
  {| PlayerRating.player_id := 2; PlayerRating.role := "jungle";
     PlayerRating.mmr := 1500 |}.

Definition rating_c : PlayerRating.t :=
  {| PlayerRating.player_id := 3; PlayerRating.role := "jungle";
     PlayerRating.mmr := 1400 |}.

(** Two stores with the same rating rows, yielded in opposite orders. *)
Definition tied_ab : Session.t :=
  {| Session.games := []; Session.participants := [];
     Session.player_ratings := [rating_c; rating_a; rating_b] |}.

Definition tied_ba : Session.t :=
  {| Session.games := []; Session.participants := [];
     Session.player_ratings := [rating_c; rating_b; rating_a] |}.

(** A matcher that only knows exact names: the name itself with the full
    score, otherwise the first choice with none. *)
Definition exact_match (text : string) (choices : list string)
    : string * Z :=
  match find (String.eqb text) choices with
  | Some c => (c, 100)
  | None => (hd ""%string choices, 0)
  end.

Definition roles_list : list string :=
  ["top"; "jungle"; "mid"; "bot"; "support"]%string.

Definition player_name (id : Z) : string :=
  if id =? 1 then "A" else if id =? 2 then "B" else "C".

Definition get_games (r : PlayerRating.t) : Z := 0.

Definition world0 : world := {| tick := 0; figure := [] |}.

(** A player ranked 2nd in one role and 10th in another. *)
Definition rating_top : PlayerRating.t :=
  {| PlayerRating.player_id := 7; PlayerRating.role := "top";
     PlayerRating.mmr := 1600 |}.

Definition rating_mid : PlayerRating.t :=
  {| PlayerRating.player_id := 7; PlayerRating.role := "mid";
     PlayerRating.mmr := 1450 |}.

Definition player7 : Player.t :=
  {| Player.discord_id := 7; Player.name := "P";
     Player.ratings := [("top"%string, rating_top);
                        ("mid"%string, rating_mid)] |}.

Definition rank_2_and_10 (r : PlayerRating.t) : N :=
  if (PlayerRating.role r =? "top")%string then 2%N else 10%N.

Definition rank_2_and_3 (r : PlayerRating.t) : N :=
  if (PlayerRating.role r =? "top")%string then 2%N else 3%N.

Definition get_name (champion_id : Z) : option string :=
  if champion_id =? 1 then Some "Annie"%string else None.

Definition stats_support_mid : list (string * RoleStats.t) :=
  [("support"%string, {| RoleStats.games := 3; RoleStats.wins := 2 |});
   ("mid"%string, {| RoleStats.games := 2; RoleStats.wins := 0 |})].

Definition champion_stats_annie : list (Z * ChampionStats.t) :=
  [(1, {| ChampionStats.role := "mid"; ChampionStats.games := 2;
          ChampionStats.wins := 1 |})].

Definition rating_support : PlayerRating.t :=
  {| PlayerRating.player_id := 7; PlayerRating.role := "support";
     PlayerRating.mmr := 1500 |}.

Definition player7_support_mid : Player.t :=
  {| Player.discord_id := 7; Player.name := "P";
     Player.ratings := [("support"%string, rating_support);
                        ("mid"%string, rating_mid)] |}.

(** Three games of player 7, two as support and one as mid, and one row
    of another player. *)
Definition game1 : Game.t :=
  {| Game.id := 1; Game.date := 100; Game.winner := "blue" |}.
Definition game2 : Game.t :=
  {| Game.id := 2; Game.date := 200; Game.winner := "red" |}.
Definition game3 : Game.t :=
  {| Game.id := 3; Game.date := 300; Game.winner := "blue" |}.

Definition row1 : GameParticipant.t :=
  {| GameParticipant.game_id := 1; GameParticipant.player_id := 7;
     GameParticipant.role := "support"; GameParticipant.champion_id := 1;
     GameParticipant.team := "blue"; GameParticipant.mmr := 1480 |}.
Definition row2 : GameParticipant.t :=
  {| GameParticipant.game_id := 2; GameParticipant.player_id := 7;
     GameParticipant.role := "mid"; GameParticipant.champion_id := 2;
     GameParticipant.team := "blue"; GameParticipant.mmr := 1440 |}.
Definition row3 : GameParticipant.t :=
  {| GameParticipant.game_id := 3; GameParticipant.player_id := 7;
     GameParticipant.role := "support"; GameParticipant.champion_id := 1;
     GameParticipant.team := "blue"; GameParticipant.mmr := 1490 |}.
Definition row_other : GameParticipant.t :=
  {| GameParticipant.game_id := 1; GameParticipant.player_id := 8;
     GameParticipant.role := "support"; GameParticipant.champion_id := 3;
     GameParticipant.team := "red"; GameParticipant.mmr := 1500 |}.

Definition store : Session.t :=
  {| Session.games := [game1; game2; game3];
     Session.participants := [row1; row_other; row2; row3];
     Session.player_ratings := [rating_support; rating_mid; rating_top] |}.

(** The same games, with the participant rows yielded latest first. *)
Definition store_latest_first : Session.t :=
  {| Session.games := [game1; game2; game3];
     Session.participants := [row3; row_other; row2; row1];
     Session.player_ratings := [rating_support; rating_mid; rating_top] |}.

(** Player 7 with, besides, a rating seeded for a role never played. *)
Definition player7_seeded : Player.t :=
  {| Player.discord_id := 7; Player.name := "P";
     Player.ratings := [("support"%string, rating_support);
                        ("mid"%string, rating_mid);
                        ("top"%string, rating_top)] |}.

(** A clock that advances by a second at each reading. *)
Definition clock (k : nat) : Time := 1000 + Z.of_nat k.

Definition dateparser_parse (now : Time) (text : string) : option Time :=
  if (text =? "one month ago")%string then Some (now - 2592000)
  else if (text =? "epoch")%string then Some 0
  else None.

Definition rank_12_and_45 (r : PlayerRating.t) : N :=
  if (PlayerRating.role r =? "top")%string then 45%N else 12%N.

(** Statistics whose first group has neither a rating nor a game. *)
Definition stats_unrated_first : list (string * RoleStats.t) :=
  [("support"%string, {| RoleStats.games := 3; RoleStats.wins := 2 |});
   ("top"%string, {| RoleStats.games := 0; RoleStats.wins := 0 |});
   ("mid"%string, {| RoleStats.games := 0; RoleStats.wins := 0 |})].

(** Two games of player 7, the second on a champion without a name. *)
Definition games_list : list (Game.t * GameParticipant.t) :=
  [(game1, row1); (game2, row2)].

(** A player with ratings and no game yet. *)
Definition newcomer : Player.t :=
  {| Player.discord_id := 99; Player.name := "N";
     Player.ratings := [("top"%string, rating_top)] |}.

(** Store accesses that find the same statistics whatever the date. *)
Definition get_roles_stats (player : Player.t) (s : Session.t)
    (date : date_value) : list (string * RoleStats.t) :=
  stats_support_mid.

Definition get_roles_stats_unrated (player : Player.t) (s : Session.t)
    (date : date_value) : list (string * RoleStats.t) :=
  stats_unrated_first.

Definition get_champions_stats (player : Player.t) (s : Session.t)
    (date : date_value) : list (Z * ChampionStats.t) :=
  champion_stats_annie.

(** The store of the three games with one more, played as top a little
    less than a month before the epoch of the sample clock. *)
Definition game0 : Game.t :=
  {| Game.id := 0; Game.date := -2590998; Game.winner := "red" |}.
Definition row0 : GameParticipant.t :=
  {| GameParticipant.game_id := 0; GameParticipant.player_id := 7;
     GameParticipant.role := "top"; GameParticipant.champion_id := 4;
     GameParticipant.team := "blue"; GameParticipant.mmr := 1590 |}.

Definition store_month : Session.t :=
  {| Session.games := [game0; game1; game2; game3];
     Session.participants := [row0; row1; row_other; row2; row3];
     Session.player_ratings := [rating_support; rating_mid; rating_top] |}.

End Sample.

(** ** Facts on [sorted] *)

Section SortedFacts.
Context {A K : Type} (key : A -> K) (leb : K -> K -> bool).

Lemma insert_perm (x : A) (l : list A) :
  Permutation (Py.insert key leb x l) (x :: l).
Proof.
  induction l as [|y l IH]; simpl; [reflexivity|].
  destruct (leb (key x) (key y)); [reflexivity|].
  rewrite IH. apply perm_swap.
Qed.

Lemma sorted_perm (l : list A) : Permutation (Py.sorted key leb l) l.
Proof.
  induction l as [|x l IH]; simpl; [reflexivity|].
  rewrite insert_perm. now constructor.
Qed.

Lemma in_sorted (l : list A) (x : A) :
  In x (Py.sorted key leb l) <-> In x l.
Proof.
  split; apply Permutation_in;
    [apply sorted_perm | apply Permutation_sym, sorted_perm].
Qed.

Lemma sorted_length (l : list A) :
  List.length (Py.sorted key leb l) = List.length l.
Proof. apply Permutation_length, sorted_perm. Qed.

Section Ordered.
Hypothesis leb_total : forall a b, leb a b = true \/ leb b a = true.
Hypothesis leb_trans :
  forall a b c, leb a b = true -> leb b c = true -> leb a c = true.

Let le (x y : A) : Prop := leb (key x) (key y) = true.

Lemma insert_strongly_sorted (x : A) (l : list A) :
  StronglySorted le l -> StronglySorted le (Py.insert key leb x l).
Proof.
  induction 1 as [|y l Hs IH Hall]; simpl.
  - repeat constructor.
  - destruct (leb (key x) (key y)) eqn:E.
    + constructor; [now constructor|].
      constructor; [exact E|].
      eapply Forall_impl; [|exact Hall].
      intros z Hz. unfold le in *. eauto.
    + constructor; [exact IH|].
      assert (Hyx : le y x).
      { unfold le. destruct (leb_total (key x) (key y)); congruence. }
      rewrite Forall_forall in *. intros z Hz.
      apply (Permutation_in _ (insert_perm x l)) in Hz.
      destruct Hz as [<-|Hz]; auto.
Qed.

Lemma sorted_strongly_sorted (l : list A) :
  StronglySorted le (Py.sorted key leb l).
Proof.
  induction l; simpl; [constructor | now apply insert_strongly_sorted].
Qed.
End Ordered.

(** Elements that compare as equal come out in the order they went in. *)
Lemma insert_filter (P : A -> bool) (x : A) (l : list A) :
  (forall a b, P a = true -> P b = true -> leb (key a) (key b) = true) ->
  filter P (Py.insert key leb x l) = filter P (x :: l).
Proof.
  intros HP. induction l as [|y l IH]; [reflexivity|].
  simpl. destruct (leb (key x) (key y)) eqn:E; [reflexivity|].
  simpl in *. rewrite IH.
  destruct (P x) eqn:Px; [|reflexivity].
  destruct (P y) eqn:Py; [|reflexivity].
  rewrite (HP x y Px Py) in E. discriminate.
Qed.

Lemma sorted_filter (P : A -> bool) (l : list A) :
  (forall a b, P a = true -> P b = true -> leb (key a) (key b) = true) ->
  filter P (Py.sorted key leb l) = filter P l.
Proof.
  intros HP. induction l as [|x l IH]; [reflexivity|].
  simpl Py.sorted. rewrite (insert_filter P x _ HP).
  simpl. now rewrite IH.
Qed.
End SortedFacts.

(** Two orders that agree on the elements of a list sort it alike. *)
Lemma insert_ext {A K K' : Type} (key : A -> K) (leb : K -> K -> bool)
    (key' : A -> K') (leb' : K' -> K' -> bool) (x : A) (l : list A) :
  (forall y, In y l -> leb (key x) (key y) = leb' (key' x) (key' y)) ->
  Py.insert key leb x l = Py.insert key' leb' x l.
Proof.
  induction l as [|y l IH]; intros H; [reflexivity|].
  simpl. rewrite (H y (or_introl eq_refl)).
  destruct (leb' (key' x) (key' y)); [reflexivity|].
  f_equal. apply IH. intros z Hz. apply H. now right.
Qed.

Lemma sorted_ext {A K K' : Type} (key : A -> K) (leb : K -> K -> bool)
    (key' : A -> K') (leb' : K' -> K' -> bool) (l : list A) :
  (forall x y, In x l -> In y l ->
               leb (key x) (key y) = leb' (key' x) (key' y)) ->
  Py.sorted key leb l = Py.sorted key' leb' l.
Proof.
  induction l as [|x l IH]; intros H; [reflexivity|].
  simpl. rewrite IH by (intros a b Ha Hb; apply H; right; assumption).
  apply insert_ext. intros y Hy. apply H; [left; reflexivity|].
  right. exact (proj1 (in_sorted key' leb' l y) Hy).
Qed.

Lemma insert_map {A B K : Type} (f : A -> B) (key : B -> K)
    (leb : K -> K -> bool) (x : A) (l : list A) :
  Py.insert key leb (f x) (map f l)
  = map f (Py.insert (fun a => key (f a)) leb x l).
Proof.
  induction l as [|y l IH]; [reflexivity|].
  simpl. destruct (leb (key (f x)) (key (f y))); [reflexivity|].
  simpl. now rewrite IH.
Qed.

Lemma sorted_map {A B K : Type} (f : A -> B) (key : B -> K)
    (leb : K -> K -> bool) (l : list A) :
  Py.sorted key leb (map f l)
  = map f (Py.sorted (fun a => key (f a)) leb l).
Proof.
  induction l as [|x l IH]; [reflexivity|].
  simpl. rewrite IH. apply insert_map.
Qed.

Lemma strongly_sorted_impl {A : Type} (R R' : A -> A -> Prop) (l : list A) :
  (forall a b, R a b -> R' a b) -> StronglySorted R l -> StronglySorted R' l.
Proof.
  intros HR. induction 1 as [|x l Hs IH Hall]; constructor; [exact IH|].
  eapply Forall_impl; [|exact Hall]. intros b. apply HR.
Qed.

Lemma strongly_sorted_firstn {A : Type} (R : A -> A -> Prop) (n : nat)
    (l : list A) :
  StronglySorted R l -> StronglySorted R (firstn n l).
Proof.
  intros Hs. revert n. induction Hs as [|x l Hs IH Hall]; intros [|n]; simpl;
    try constructor; auto.
  rewrite Forall_forall in *. intros y Hy. apply Hall.
  rewrite <- (firstn_skipn n l). apply in_or_app. now left.
Qed.

(** ** The leaderboard *)

Lemma order_by_mmr_desc_sorted (rows : list PlayerRating.t) :
  StronglySorted (fun a b => PlayerRating.mmr a >= PlayerRating.mmr b)
    (StatsCog.order_by_mmr_desc rows).
Proof.
  unfold StatsCog.order_by_mmr_desc.
  eapply strongly_sorted_impl;
    [| apply (sorted_strongly_sorted (fun r => - PlayerRating.mmr r) Z.leb)].
  - intros a b H. simpl in H. apply Z.leb_le in H. lia.
  - intros a b. rewrite !Z.leb_le. lia.
  - intros a b c. rewrite !Z.leb_le. lia.
Qed.

Lemma order_by_mmr_desc_stable (rows : list PlayerRating.t) (m : Z) :
  filter (fun r => PlayerRating.mmr r =? m) (StatsCog.order_by_mmr_desc rows)
  = filter (fun r => PlayerRating.mmr r =? m) rows.
Proof.
  apply sorted_filter. intros a b Ha Hb.
  apply Z.eqb_eq in Ha, Hb. apply Z.leb_le. lia.
Qed.

(** C1, as the code has it: the leaderboard of a role holds at most twenty
    rating rows of that role, in descending (non-increasing) order of
    rating; it is the head of an ordering of all the rows of the role in
    which rows of equal rating stand in the order the store yields them.
    No secondary key is involved. *)
Theorem ranking_descending_store_order (s : Session.t) (role : string) :
  let rows :=
    filter (fun r => (PlayerRating.role r =? role)%string)
           (Session.player_ratings s) in
  StronglySorted (fun a b => PlayerRating.mmr a >= PlayerRating.mmr b)
    (StatsCog.role_ranking s role)
  /\ (List.length (StatsCog.role_ranking s role) <= 20)%nat
  /\ exists full,
       StatsCog.role_ranking s role = firstn 20 full
       /\ Permutation full rows
       /\ StronglySorted
            (fun a b => PlayerRating.mmr a >= PlayerRating.mmr b) full
       /\ forall m,
            filter (fun r => PlayerRating.mmr r =? m) full
            = filter (fun r => PlayerRating.mmr r =? m) rows.
Proof.
  intros rows. unfold StatsCog.role_ranking. fold rows.
  split; [|split].
  - apply strongly_sorted_firstn, order_by_mmr_desc_sorted.
  - apply firstn_le_length.
  - exists (StatsCog.order_by_mmr_desc rows).
    split; [reflexivity|]. split; [apply sorted_perm|].
    split; [apply order_by_mmr_desc_sorted|].
    intros m. apply order_by_mmr_desc_stable.
Qed.

(** C1, as stated, fails: no key of the rating rows, under any strict
    order, makes every leaderboard strictly sorted by descending rating and
    then ascending key. The two stores of [Sample.tied_ab] and
    [Sample.tied_ba] hold the same two rows of equal rating in opposite
    orders, and the leaderboard follows the store in both. *)
Lemma ranking_ties_follow_store_not_key :
  StatsCog.role_ranking Sample.tied_ab "jungle"
    = [Sample.rating_a; Sample.rating_b; Sample.rating_c]
  /\ StatsCog.role_ranking Sample.tied_ba "jungle"
    = [Sample.rating_b; Sample.rating_a; Sample.rating_c]
  /\ ~ exists (K : Type) (lt : K -> K -> Prop) (key : PlayerRating.t -> K),
         (forall a b, lt a b -> lt b a -> False)
         /\ forall s role,
              StronglySorted
                (fun a b =>
                   PlayerRating.mmr a > PlayerRating.mmr b
                   \/ (PlayerRating.mmr a = PlayerRating.mmr b
                       /\ lt (key a) (key b)))
                (StatsCog.role_ranking s role).
Proof.
  split; [reflexivity|]. split; [reflexivity|].
  intros (K & lt & key & Hasym & Hsorted).
  pose proof (Hsorted Sample.tied_ab "jungle"%string) as Hab.
  pose proof (Hsorted Sample.tied_ba "jungle"%string) as Hba.
  change (StatsCog.role_ranking Sample.tied_ab "jungle")
    with [Sample.rating_a; Sample.rating_b; Sample.rating_c] in Hab.
  change (StatsCog.role_ranking Sample.tied_ba "jungle")
    with [Sample.rating_b; Sample.rating_a; Sample.rating_c] in Hba.
  inversion Hab as [|? ? _ Fab]; subst.
  inversion Hba as [|? ? _ Fba]; subst.
  inversion Fab as [|? ? [Hgt|[_ Hlt1]] _]; subst; [simpl in Hgt; lia|].
  inversion Fba as [|? ? [Hgt|[_ Hlt2]] _]; subst; [simpl in Hgt; lia|].
  exact (Hasym _ _ Hlt1 Hlt2).
Qed.

(** C2: a role whose best match scores under 80 gets the
    [role_not_understood] reply, and the command goes on all the same: it
    runs the rating query for the best match and sends its table. *)
Theorem ranking_low_score_still_queries
    (player_name : Z -> string) (get_games : PlayerRating.t -> Z)
    (extractOne : string -> list string -> string * Z)
    (roles_list : list string) (s : Session.t) (role : string) (w : world) :
  snd (extractOne role roles_list) < 80 ->
  StatsCog.ranking player_name get_games extractOne roles_list s role w
  = (w,
     [CtxSend role_not_understood;
      SessionQuery (RatingsOfRole (fst (extractOne role roles_list)));
      CtxSend
        (Tabulate
           (StatsCog.ranking_table player_name get_games s
              (fst (extractOne role roles_list))))],
     inr tt).
Proof.
  intros Hlow. unfold StatsCog.ranking.
  destruct (extractOne role roles_list) as [clean_role score].
  simpl in Hlow |- *. apply Z.ltb_lt in Hlow.
  unfold mbind, ctx_send, emit. now rewrite Hlow.
Qed.

Lemma ranking_low_score_still_queries_witness :
  snd (Sample.exact_match "xyz" Sample.roles_list) < 80
  /\ trace
       (StatsCog.ranking Sample.player_name Sample.get_games
          Sample.exact_match Sample.roles_list Sample.tied_ab "xyz"
          Sample.world0)
     = [CtxSend role_not_understood;
        SessionQuery (RatingsOfRole "top");
        CtxSend
          (Tabulate
             (StatsCog.ranking_table Sample.player_name Sample.get_games
                Sample.tied_ab "top"))].
Proof.
  split; [reflexivity|].
  rewrite (ranking_low_score_still_queries Sample.player_name
             Sample.get_games Sample.exact_match Sample.roles_list
             Sample.tied_ab "xyz" Sample.world0);
    reflexivity.
Defined.

(** With a score of 80 or more the query is the only thing that precedes
    the table. *)
Lemma ranking_understood
    (player_name : Z -> string) (get_games : PlayerRating.t -> Z)
    (extractOne : string -> list string -> string * Z)
    (roles_list : list string) (s : Session.t) (role : string) (w : world) :
  80 <= snd (extractOne role roles_list) ->
  StatsCog.ranking player_name get_games extractOne roles_list s role w
  = (w,
     [SessionQuery (RatingsOfRole (fst (extractOne role roles_list)));
      CtxSend
        (Tabulate
           (StatsCog.ranking_table player_name get_games s
              (fst (extractOne role roles_list))))],
     inr tt).
Proof.
  intros Hok. unfold StatsCog.ranking.
  destruct (extractOne role roles_list) as [clean_role score].
  simpl in Hok |- *. apply Z.ltb_ge in Hok.
  unfold mbind, ctx_send, emit. now rewrite Hok.
Qed.

(** ** The order of text *)

Lemma ascii_compare_refl (a : ascii) : Ascii.compare a a = Eq.
Proof. apply N.compare_refl. Qed.

Lemma ascii_compare_lt_trans (a b c : ascii) :
  Ascii.compare a b = Lt -> Ascii.compare b c = Lt -> Ascii.compare a c = Lt.
Proof.
  unfold Ascii.compare. rewrite !N.compare_lt_iff. apply N.lt_trans.
Qed.

Lemma string_leb_trans (s1 s2 s3 : string) :
  String.leb s1 s2 = true -> String.leb s2 s3 = true ->
  String.leb s1 s3 = true.
Proof.
  unfold String.leb. revert s2 s3.
  induction s1 as [|a s1 IH]; intros [|b s2] [|c s3]; simpl;
    try reflexivity; try discriminate.
  destruct (Ascii.compare a b) eqn:Eab; try discriminate.
  - apply Ascii.compare_eq_iff in Eab. subst b.
    destruct (Ascii.compare a c); eauto.
  - destruct (Ascii.compare b c) eqn:Ebc; try discriminate.
    + apply Ascii.compare_eq_iff in Ebc. subst c. now rewrite Eab.
    + now rewrite (ascii_compare_lt_trans a b c Eab Ebc).
Qed.

(** ** The ranks of a player *)

(** Up to nine, the ordinals compare as text the way their numbers do. *)
Lemma ordinal_order_up_to_9 (a b : N) :
  (a <= 9)%N -> (b <= 9)%N ->
  String.leb (Inflect.ordinal a) (Inflect.ordinal b) = N.leb a b.
Proof.
  intros Ha Hb.
  assert (Ea : In a [0; 1; 2; 3; 4; 5; 6; 7; 8; 9]%N).
  { simpl. lia. }
  assert (Eb : In b [0; 1; 2; 3; 4; 5; 6; 7; 8; 9]%N).
  { simpl. lia. }
  clear Ha Hb. revert a b Ea Eb.
  assert (H : forallb
                (fun a =>
                   forallb
                     (fun b =>
                        Bool.eqb
                          (String.leb (Inflect.ordinal a) (Inflect.ordinal b))
                          (N.leb a b))
                     [0; 1; 2; 3; 4; 5; 6; 7; 8; 9]%N)
                [0; 1; 2; 3; 4; 5; 6; 7; 8; 9]%N = true)
    by (vm_compute; reflexivity).
  intros a b Ea Eb. rewrite forallb_forall in H.
  specialize (H a Ea). rewrite forallb_forall in H.
  specialize (H b Eb). now apply Bool.eqb_prop in H.
Qed.

(** C10: the table that [rank] sends has its rows sorted by their ordinal
    as text. When no rank exceeds nine that is the order of the ranks as
    numbers; it is not in general: ranks 2 and 10 come out as "10th" before
    "2nd". *)
Theorem rank_sorted_by_ordinal_text :
  (forall (get_rank : PlayerRating.t -> N) (player : Player.t) (w : world),
      exists rows,
        StatsCog.rank get_rank player w
        = (w,
           [CtxSend
              (Tabulate (Shape.rank_header :: map Shape.rank_cells rows))],
           inr tt)
        /\ rows = StatsCog.rank_sorted get_rank player
        /\ rows = Py.sorted snd String.leb (StatsCog.rank_rows get_rank player)
        /\ Permutation rows (StatsCog.rank_rows get_rank player)
        /\ StronglySorted (fun x y => String.leb (snd x) (snd y) = true)
             rows)
  /\ (forall (get_rank : PlayerRating.t -> N) (player : Player.t)
             (w : world),
         (forall kv, In kv (Player.ratings player) ->
                     (get_rank (snd kv) <= 9)%N) ->
         StatsCog.rank_sorted get_rank player
         = StatsCog.rank_sorted_by_number get_rank player
         /\ StatsCog.rank get_rank player w
            = (w,
               [CtxSend
                  (Tabulate
                     (Shape.rank_header
                        :: map Shape.rank_cells
                             (StatsCog.rank_sorted_by_number get_rank
                                player)))],
               inr tt))
  /\ StatsCog.rank Sample.rank_2_and_10 Sample.player7 Sample.world0
     = (Sample.world0,
        [CtxSend
           (Tabulate
              [[CStr "Role"; CStr "Rank"]; [CStr "Mid"; CStr "10th"];
               [CStr "Top"; CStr "2nd"]])],
        inr tt)
  /\ StatsCog.rank_sorted Sample.rank_2_and_10 Sample.player7
     = [("Mid", "10th"); ("Top", "2nd")]%string
  /\ StatsCog.rank_sorted_by_number Sample.rank_2_and_10 Sample.player7
     = [("Top", "2nd"); ("Mid", "10th")]%string.
Proof.
  assert (Hsmall : forall get_rank player,
             (forall kv, In kv (Player.ratings player) ->
                         (get_rank (snd kv) <= 9)%N) ->
             StatsCog.rank_sorted get_rank player
             = StatsCog.rank_sorted_by_number get_rank player).
  { intros get_rank player Hsmall.
    unfold StatsCog.rank_sorted, StatsCog.rank_rows,
      StatsCog.rank_sorted_by_number.
    rewrite sorted_map. f_equal.
    apply sorted_ext. intros x y Hx Hy. simpl.
    apply ordinal_order_up_to_9; auto. }
  split; [|split; [|repeat split; reflexivity]].
  - intros get_rank player w.
    exists (StatsCog.rank_sorted get_rank player).
    split; [reflexivity|]. split; [reflexivity|]. split; [reflexivity|].
    split; [apply sorted_perm|].
    apply (sorted_strongly_sorted (@snd string string) String.leb).
    + apply String.leb_total.
    + apply string_leb_trans.
  - intros get_rank player w H. split; [now apply Hsmall|].
    rewrite <- (Hsmall get_rank player H). reflexivity.
Qed.

Lemma rank_sorted_by_ordinal_text_witness :
  (forall kv, In kv (Player.ratings Sample.player7) ->
              (Sample.rank_2_and_3 (snd kv) <= 9)%N)
  /\ StatsCog.rank Sample.rank_2_and_3 Sample.player7 Sample.world0
     = (Sample.world0,
        [CtxSend
           (Tabulate
              (Shape.rank_header
                 :: map Shape.rank_cells
                      (StatsCog.rank_sorted_by_number Sample.rank_2_and_3
                         Sample.player7)))],
        inr tt).
Proof.
  assert (H : forall kv, In kv (Player.ratings Sample.player7) ->
                         (Sample.rank_2_and_3 (snd kv) <= 9)%N).
  { intros kv [<-|[<-|[]]]; vm_compute; discriminate. }
  split; [exact H|].
  exact (proj2 (proj1 (proj2 rank_sorted_by_ordinal_text) _ _ _ H)).
Defined.

(** ** Wins *)

Lemma outcome_of_win (game : Game.t) (participant : GameParticipant.t) :
  StatsCog.outcome_of game participant = "Win"%string
  <-> Game.winner game = GameParticipant.team participant.
Proof.
  unfold StatsCog.outcome_of.
  destruct (String.eqb_spec (Game.winner game)
              (GameParticipant.team participant)) as [E|E].
  - tauto.
  - split; [discriminate | contradiction].
Qed.

Lemma reads_win_history_row (get_name : Z -> option string)
    (gp : Game.t * GameParticipant.t) :
  StatsCog.reads_win (StatsCog.history_row get_name gp)
  = (Game.winner (fst gp) =? GameParticipant.team (snd gp))%string.
Proof.
  destruct gp as [game participant]. unfold StatsCog.reads_win. simpl.
  unfold StatsCog.outcome_of.
  now destruct (Game.winner game =? GameParticipant.team participant)%string.
Qed.

Section AggregationFacts.
Context {K : Type} (eqb : K -> K -> bool)
  (key : Game.t * GameParticipant.t -> K).
Hypothesis eqb_eq : forall a b, eqb a b = true <-> a = b.

Lemma lookup_count_in (k : K) (gp : Game.t * GameParticipant.t)
    (d : list (K * RoleStats.t)) :
  Aggregation.lookup eqb k (Aggregation.count_in eqb key gp d)
  = if eqb (key gp) k
    then Some (Aggregation.count gp
                 (match Aggregation.lookup eqb (key gp) d with
                  | Some st => st
                  | None => Aggregation.no_game
                  end))
    else Aggregation.lookup eqb k d.
Proof.
  assert (Hrefl : forall a, eqb a a = true) by (intros a; now apply eqb_eq).
  induction d as [|[k0 st] d IH]; simpl.
  - reflexivity.
  - destruct (eqb k0 (key gp)) eqn:E0; simpl.
    + apply eqb_eq in E0. subst k0. now destruct (eqb (key gp) k).
    + rewrite IH. destruct (eqb (key gp) k) eqn:Ek; [|reflexivity].
      apply eqb_eq in Ek. subst k. now rewrite E0.
Qed.

Lemma tally_count (gp : Game.t * GameParticipant.t) (st : RoleStats.t)
    (rows : list (Game.t * GameParticipant.t)) :
  Aggregation.tally (Aggregation.count gp st) rows
  = Aggregation.tally st (gp :: rows).
Proof.
  unfold Aggregation.tally, Aggregation.count. simpl.
  destruct (Aggregation.won gp); simpl; f_equal; lia.
Qed.

Lemma tally_nil (st : RoleStats.t) : Aggregation.tally st [] = st.
Proof.
  destruct st as [g v]. unfold Aggregation.tally. simpl. f_equal; lia.
Qed.

Lemma lookup_fold_count_in (k : K)
    (rows : list (Game.t * GameParticipant.t))
    (d : list (K * RoleStats.t)) :
  Aggregation.lookup eqb k
    (fold_left (fun d gp => Aggregation.count_in eqb key gp d) rows d)
  = match filter (fun gp => eqb (key gp) k) rows with
    | [] => Aggregation.lookup eqb k d
    | rs => Some (Aggregation.tally
                    (match Aggregation.lookup eqb k d with
                     | Some st => st
                     | None => Aggregation.no_game
                     end) rs)
    end.
Proof.
  revert d. induction rows as [|gp rows IH]; intros d; [reflexivity|].
  simpl fold_left. rewrite IH, lookup_count_in. simpl filter.
  destruct (eqb (key gp) k) eqn:Ek; [|reflexivity].
  apply eqb_eq in Ek. subst k.
  destruct (filter _ rows) as [|r rs].
  - now rewrite <- (tally_count gp _ []), tally_nil.
  - now rewrite tally_count.
Qed.

Lemma lookup_aggregate (k : K) (rows : list (Game.t * GameParticipant.t)) :
  Aggregation.lookup eqb k (Aggregation.aggregate eqb key rows)
  = match filter (fun gp => eqb (key gp) k) rows with
    | [] => None
    | rs => Some (Aggregation.tally Aggregation.no_game rs)
    end.
Proof. unfold Aggregation.aggregate. now rewrite lookup_fold_count_in. Qed.
End AggregationFacts.

Lemma tally_as_shown (get_name : Z -> option string)
    (rows : list (Game.t * GameParticipant.t)) :
  Aggregation.tally Aggregation.no_game rows
  = Aggregation.shown get_name rows.
Proof.
  assert (E : List.length
                (filter StatsCog.reads_win
                   (map (StatsCog.history_row get_name) rows))
              = List.length (filter Aggregation.won rows)).
  { induction rows as [|gp rows IH]; [reflexivity|].
    simpl. rewrite reads_win_history_row. fold (Aggregation.won gp).
    destruct (Aggregation.won gp); simpl; now rewrite IH. }
  unfold Aggregation.tally, Aggregation.shown. rewrite E. simpl.
  f_equal.
Qed.

(** C7: [history] sends a table in which the result of a participant row
    is a win exactly when the participant's team is the winner of the
    game, a loss otherwise, and the wins of the match history are the rows
    that satisfy this. The wins of a group of the statistics, by role or
    by character, are the rows of the group that [history] shows as
    won. *)
Theorem history_win_iff_team_is_winner (get_name : Z -> option string)
    (games_list : list (Game.t * GameParticipant.t)) (w : world) :
  StatsCog.history get_name games_list w
  = (w, [CtxSend (Tabulate (StatsCog.history_table get_name games_list))],
     inr tt)
  /\ (forall game participant,
         nth 4 (StatsCog.history_row get_name (game, participant)) CNone
         = CStr "Win"
         <-> Game.winner game = GameParticipant.team participant)
  /\ (forall game participant,
         nth 4 (StatsCog.history_row get_name (game, participant)) CNone
         = CStr "Loss"
         <-> Game.winner game <> GameParticipant.team participant)
  /\ List.length
       (filter StatsCog.reads_win
          (StatsCog.history_table get_name games_list))
     = List.length
         (filter
            (fun gp =>
               (Game.winner (fst gp) =? GameParticipant.team (snd gp))
               %string)
            games_list)
  /\ (forall role,
         Aggregation.lookup String.eqb role
           (Aggregation.aggregate_by_role games_list)
         = match Rows.of_role role games_list with
           | [] => None
           | rs => Some (Aggregation.shown get_name rs)
           end)
  /\ (forall id,
         Aggregation.lookup Z.eqb id
           (Aggregation.aggregate_by_character games_list)
         = match filter
                   (fun gp => GameParticipant.champion_id (snd gp) =? id)
                   games_list with
           | [] => None
           | rs => Some (Aggregation.shown get_name rs)
           end).
Proof.
  split; [reflexivity|]. split; [|split; [|split; [|split]]].
  - intros game participant. simpl.
    rewrite <- outcome_of_win. split; [now intros [= ->] | now intros ->].
  - intros game participant. simpl. unfold StatsCog.outcome_of.
    destruct (String.eqb_spec (Game.winner game)
                (GameParticipant.team participant)) as [E|E].
    + split; [discriminate | contradiction].
    + tauto.
  - unfold StatsCog.history_table.
    change (filter StatsCog.reads_win (?h :: ?t))
      with (filter StatsCog.reads_win t).
    induction games_list as [|gp l IH]; [reflexivity|].
    simpl map. simpl filter. rewrite reads_win_history_row.
    destruct (Game.winner (fst gp) =? GameParticipant.team (snd gp))%string;
      simpl; now rewrite IH.
  - intros role. unfold Aggregation.aggregate_by_role.
    rewrite (lookup_aggregate String.eqb _ String.eqb_eq).
    unfold Rows.of_role.
    destruct (filter _ games_list) as [|r rs]; [reflexivity|].
    now rewrite (tally_as_shown get_name).
  - intros id. unfold Aggregation.aggregate_by_character.
    rewrite (lookup_aggregate Z.eqb _ Z.eqb_eq).
    destruct (filter _ games_list) as [|r rs]; [reflexivity|].
    now rewrite (tally_as_shown get_name).
Qed.

(** ** Resolving the date *)

Lemma resolve_run (dateparser_parse : Time -> string -> option Time)
    (clock : nat -> Time) (date_start : option string) (w : world) :
  StatsCog.resolve dateparser_parse clock date_start w
  = (Shape.after_resolve date_start w, [],
     inr (Shape.resolved dateparser_parse clock date_start w)).
Proof.
  unfold StatsCog.resolve, Shape.after_resolve, Shape.resolved.
  destruct date_start as [text|]; [|reflexivity].
  destruct (text =? "")%string; reflexivity.
Qed.

Lemma mmr_unfold (dateparser_parse : Time -> string -> option Time)
    (clock : nat -> Time)
    (get_roles_stats :
       Player.t -> Session.t -> date_value -> list (string * RoleStats.t))
    (s : Session.t) (player : Player.t) (date_start : option string)
    (w : world) :
  StatsCog.mmr dateparser_parse clock get_roles_stats s player date_start w
  = StatsCog.send_roles_stats player
      (Shape.stats_for get_roles_stats dateparser_parse clock s player
         date_start w)
      (Shape.after_resolve date_start w).
Proof.
  unfold StatsCog.mmr, mbind, Shape.stats_for. rewrite resolve_run.
  now destruct (StatsCog.send_roles_stats _ _ _) as [[w2 t2] r].
Qed.

Lemma champions_stats_unfold (get_name : Z -> option string)
    (dateparser_parse : Time -> string -> option Time)
    (clock : nat -> Time)
    (get_champions_stats :
       Player.t -> Session.t -> date_value -> list (Z * ChampionStats.t))
    (s : Session.t) (player : Player.t) (date_start : option string)
    (w : world) :
  StatsCog.champions_stats get_name dateparser_parse clock
    get_champions_stats s player date_start w
  = StatsCog.send_champions_stats get_name
      (Shape.stats_for get_champions_stats dateparser_parse clock s player
         date_start w)
      (Shape.after_resolve date_start w).
Proof.
  unfold StatsCog.champions_stats, mbind, Shape.stats_for.
  rewrite resolve_run.
  now destruct (StatsCog.send_champions_stats _ _ _) as [[w2 t2] r].
Qed.

(** ** Win rates *)

Lemma mapM_error {A B : Type} (f : A -> result B) (l : list A) (e : error) :
  mapM f l = inl e -> exists x, In x l /\ f x = inl e.
Proof.
  induction l as [|x l IH]; simpl; [discriminate|].
  unfold bind at 1. destruct (f x) as [e'|y] eqn:Ex.
  - intros [= ->]. exists x. auto.
  - unfold bind. destruct (mapM f l) as [e'|ys]; [|discriminate].
    intros [= ->]. destruct (IH eq_refl) as (x' & Hin & Hx'). eauto.
Qed.

Lemma mapM_ok {A B : Type} (f : A -> result B) (l : list A) :
  (forall x, In x l -> exists y, f x = inr y) ->
  exists ys, mapM f l = inr ys /\ List.length ys = List.length l.
Proof.
  induction l as [|x l IH]; intros H; simpl.
  - exists []. auto.
  - destruct (H x (or_introl eq_refl)) as [y Ey]. rewrite Ey. simpl.
    destruct IH as (ys & Eys & Hlen); [intros; apply H; now right|].
    rewrite Eys. simpl. exists (y :: ys). simpl. auto.
Qed.

Lemma winrate_defined (wins games : Z) :
  games >= 1 ->
  StatsCog.winrate wins games = inr (inject_Z wins / inject_Z games * 100)%Q.
Proof.
  intros H. unfold StatsCog.winrate.
  destruct (Z.eqb_spec games 0); [lia | reflexivity].
Qed.

Lemma winrate_zero_games (wins : Z) :
  StatsCog.winrate wins 0 = inl ZeroDivisionError.
Proof. reflexivity. Qed.

Lemma send_roles_stats_outcome (player : Player.t) (stats : list (string * RoleStats.t))
    (w : world) :
  outcome (StatsCog.send_roles_stats player stats w)
  = match StatsCog.mmr_rows player stats with
    | inl e => inl e
    | inr _ => inr tt
    end.
Proof.
  unfold StatsCog.send_roles_stats, mbind, lift, outcome.
  now destruct (StatsCog.mmr_rows player stats).
Qed.

Lemma send_champions_stats_outcome (get_name : Z -> option string)
    (stats : list (Z * ChampionStats.t)) (w : world) :
  outcome (StatsCog.send_champions_stats get_name stats w)
  = match StatsCog.champion_rows get_name stats with
    | inl e => inl e
    | inr _ => inr tt
    end.
Proof.
  unfold StatsCog.send_champions_stats, mbind, lift, outcome.
  now destruct (StatsCog.champion_rows get_name stats).
Qed.

(** With at least one game in every group, neither table divides by
    zero. *)
Lemma send_stats_never_divide_by_zero
    (get_name : Z -> option string) (player : Player.t)
    (role_stats : list (string * RoleStats.t))
    (champion_stats : list (Z * ChampionStats.t)) (w : world) :
  (forall role st, In (role, st) role_stats -> RoleStats.games st >= 1) ->
  (forall id st, In (id, st) champion_stats ->
                 ChampionStats.games st >= 1) ->
  outcome (StatsCog.send_roles_stats player role_stats w) <> inl ZeroDivisionError
  /\ ((forall role st, In (role, st) role_stats ->
                       Py.get role (Player.ratings player) <> None) ->
      outcome (StatsCog.send_roles_stats player role_stats w) = inr tt)
  /\ outcome (StatsCog.send_champions_stats get_name champion_stats w) = inr tt.
Proof.
  intros Hroles Hchamps. split; [|split].
  - rewrite send_roles_stats_outcome.
    destruct (StatsCog.mmr_rows player role_stats) as [e|rows] eqn:E;
      [|discriminate].
    intros [= ->]. apply mapM_error in E.
    destruct E as ([role st] & Hin & Hrow). unfold StatsCog.mmr_row in Hrow.
    unfold getitem in Hrow.
    destruct (Py.get role (Player.ratings player)); [|discriminate].
    simpl in Hrow.
    rewrite (winrate_defined _ _ (Hroles role st Hin)) in Hrow.
    discriminate.
  - intros Hrated. rewrite send_roles_stats_outcome.
    destruct (mapM_ok (StatsCog.mmr_row player) role_stats) as (ys & E & _).
    + intros [role st] Hin. unfold StatsCog.mmr_row, getitem.
      destruct (Py.get role (Player.ratings player)) as [rating|] eqn:Er;
        [|exfalso; exact (Hrated role st Hin Er)].
      simpl. rewrite (winrate_defined _ _ (Hroles role st Hin)). simpl.
      eauto.
    + unfold StatsCog.mmr_rows. now rewrite E.
  - rewrite send_champions_stats_outcome.
    destruct (mapM_ok (StatsCog.champion_row get_name) champion_stats)
      as (ys & E & _).
    + intros [id st] Hin. unfold StatsCog.champion_row.
      rewrite (winrate_defined _ _ (Hchamps id st Hin)). simpl. eauto.
    + unfold StatsCog.champion_rows. now rewrite E.
Qed.

(** The division does raise on a group without games. *)
Lemma send_roles_stats_zero_games_raises (rating : PlayerRating.t) (wins : Z)
    (w : world) :
  outcome
    (StatsCog.send_roles_stats
       {| Player.discord_id := PlayerRating.player_id rating;
          Player.name := "";
          Player.ratings := [(PlayerRating.role rating, rating)] |}
       [(PlayerRating.role rating,
         {| RoleStats.games := 0; RoleStats.wins := wins |})] w)
  = inl ZeroDivisionError.
Proof.
  rewrite send_roles_stats_outcome.
  unfold StatsCog.mmr_rows, mapM, StatsCog.mmr_row, getitem, Py.get.
  cbn [Player.ratings]. now rewrite String.eqb_refl.
Qed.

(** ** Facts on the [defaultdict] *)

Section DictFacts.
Context {V : Type} (default : V).

Lemma get_update_default (f : V -> V) (k k' : string)
    (d : list (string * V)) :
  Py.get k' (Py.update_default default f k d)
  = if (k =? k')%string
    then Some (f (match Py.get k d with Some v => v | None => default end))
    else Py.get k' d.
Proof.
  induction d as [|[k0 v] d IH]; simpl.
  - destruct (k =? k')%string; reflexivity.
  - destruct (String.eqb_spec k0 k) as [->|Hk0]; simpl.
    + destruct (k =? k')%string; reflexivity.
    + rewrite IH. destruct (String.eqb_spec k k') as [<-|Hk]; [|reflexivity].
      destruct (String.eqb_spec k0 k); [contradiction | reflexivity].
Qed.

Lemma keys_update_default (f : V -> V) (k : string) (d : list (string * V)) :
  Py.keys (Py.update_default default f k d)
  = if in_dec string_dec k (Py.keys d) then Py.keys d else Py.keys d ++ [k].
Proof.
  induction d as [|[k0 v] d IH]; simpl; [reflexivity|].
  destruct (String.eqb_spec k0 k) as [->|Hk0]; simpl.
  - destruct (string_dec k k); [reflexivity | contradiction].
  - rewrite IH. destruct (string_dec k0 k); [contradiction|].
    unfold Py.keys. now destruct (in_dec string_dec k (map fst d)).
Qed.

Lemma nodup_keys_update_default (f : V -> V) (k : string)
    (d : list (string * V)) :
  NoDup (Py.keys d) -> NoDup (Py.keys (Py.update_default default f k d)).
Proof.
  intros Hd. rewrite keys_update_default.
  destruct (in_dec string_dec k (Py.keys d)) as [Hin|Hout]; [exact Hd|].
  apply NoDup_app; [exact Hd | repeat constructor; intros [] |].
  intros x Hx [<-|[]]. contradiction.
Qed.

Lemma get_in (k : string) (v : V) (d : list (string * V)) :
  Py.get k d = Some v -> In (k, v) d.
Proof.
  induction d as [|[k0 v0] d IH]; simpl; [discriminate|].
  destruct (String.eqb_spec k0 k) as [->|Hk0].
  - intros [= ->]. now left.
  - intros H. right. auto.
Qed.

Lemma in_get (k : string) (v : V) (d : list (string * V)) :
  NoDup (Py.keys d) -> In (k, v) d -> Py.get k d = Some v.
Proof.
  induction d as [|[k0 v0] d IH]; simpl; [contradiction|].
  intros Hd [[= -> ->]|Hin].
  - now rewrite String.eqb_refl.
  - inversion Hd as [|? ? Hout Hd']; subst.
    destruct (String.eqb_spec k0 k) as [->|Hk0]; [|auto].
    exfalso. apply Hout. unfold Py.keys.
    change k with (fst (k, v)). now apply in_map.
Qed.

Lemma get_none_iff (k : string) (d : list (string * V)) :
  Py.get k d = None <-> ~ In k (Py.keys d).
Proof.
  induction d as [|[k0 v0] d IH]; simpl; [tauto|].
  destruct (String.eqb_spec k0 k) as [->|Hk0].
  - split; [discriminate | intros H; exfalso; auto].
  - rewrite IH. tauto.
Qed.
End DictFacts.

Lemma total_update_default {V : Type} (default : V) (m : V -> nat)
    (f : V -> V) (c : nat) (k : string) (d : list (string * V)) :
  m default = 0%nat ->
  (forall v, m (f v) = (m v + c)%nat) ->
  list_sum (map (fun kv => m (snd kv)) (Py.update_default default f k d))
  = (list_sum (map (fun kv => m (snd kv)) d) + c)%nat.
Proof.
  intros H0 Hf. induction d as [|[k0 v] d IH]; simpl.
  - rewrite Hf, H0. lia.
  - destruct (k0 =? k)%string; simpl; [rewrite Hf | rewrite IH]; lia.
Qed.

(** ** Grouping the games by role *)

Lemma extend_record (s : StatsCog.series) (gp : Game.t * GameParticipant.t)
    (rows : list (Game.t * GameParticipant.t)) :
  Rows.extend
    (StatsCog.append_mmr (GameParticipant.mmr (snd gp))
       (StatsCog.append_date (Game.date (fst gp)) s)) rows
  = Rows.extend s (gp :: rows).
Proof.
  unfold Rows.extend, StatsCog.append_mmr, StatsCog.append_date. simpl.
  now rewrite <- !app_assoc.
Qed.

Lemma extend_app (s : StatsCog.series)
    (rows rows' : list (Game.t * GameParticipant.t)) :
  Rows.extend s (rows ++ rows') = Rows.extend (Rows.extend s rows) rows'.
Proof.
  unfold Rows.extend, Rows.game_dates, Rows.snapshots. simpl.
  now rewrite !map_app, !app_assoc.
Qed.

Lemma extend_nil (s : StatsCog.series) : Rows.extend s [] = s.
Proof.
  destruct s. unfold Rows.extend. simpl. now rewrite !app_nil_r.
Qed.

Lemma get_record_game (h : list (string * StatsCog.series))
    (gp : Game.t * GameParticipant.t) (role : string) :
  Py.get role (StatsCog.record_game h gp)
  = if (GameParticipant.role (snd gp) =? role)%string
    then Some (Rows.extend
                 (match Py.get (GameParticipant.role (snd gp)) h with
                  | Some s => s
                  | None => StatsCog.empty_series
                  end) [gp])
    else Py.get role h.
Proof.
  destruct gp as [game participant]. unfold StatsCog.record_game.
  rewrite !get_update_default. simpl.
  destruct (GameParticipant.role participant =? role)%string; [|reflexivity].
  rewrite String.eqb_refl.
  now rewrite <- (extend_record _ (game, participant) []), extend_nil.
Qed.

Lemma get_fold_record_game (rows : list (Game.t * GameParticipant.t))
    (h : list (string * StatsCog.series)) (role : string) :
  Py.get role (fold_left StatsCog.record_game rows h)
  = match Rows.of_role role rows with
    | [] => Py.get role h
    | rs => Some (Rows.extend
                    (match Py.get role h with
                     | Some s => s
                     | None => StatsCog.empty_series
                     end) rs)
    end.
Proof.
  revert h. induction rows as [|gp rows IH]; intros h; [reflexivity|].
  simpl fold_left. rewrite IH, get_record_game. unfold Rows.of_role.
  simpl filter.
  destruct (String.eqb_spec (GameParticipant.role (snd gp)) role) as [E|E].
  - rewrite E.
    destruct (filter _ rows) as [|r rs]; [reflexivity|].
    now rewrite <- extend_app.
  - reflexivity.
Qed.

Lemma get_group_by_role (rows : list (Game.t * GameParticipant.t))
    (role : string) :
  Py.get role (StatsCog.group_by_role rows)
  = match Rows.of_role role rows with
    | [] => None
    | rs => Some (Rows.extend StatsCog.empty_series rs)
    end.
Proof. unfold StatsCog.group_by_role. now rewrite get_fold_record_game. Qed.

Lemma nodup_keys_fold_record_game (rows : list (Game.t * GameParticipant.t))
    (h : list (string * StatsCog.series)) :
  NoDup (Py.keys h) ->
  NoDup (Py.keys (fold_left StatsCog.record_game rows h)).
Proof.
  revert h. induction rows as [|[game participant] rows IH]; intros h Hh;
    [exact Hh|].
  simpl. apply IH. unfold StatsCog.record_game.
  now do 2 apply nodup_keys_update_default.
Qed.

Lemma nodup_keys_group_by_role (rows : list (Game.t * GameParticipant.t)) :
  NoDup (Py.keys (StatsCog.group_by_role rows)).
Proof. apply nodup_keys_fold_record_game. constructor. Qed.

Lemma of_role_nonempty (role : string)
    (rows : list (Game.t * GameParticipant.t)) :
  Rows.of_role role rows <> []
  <-> exists game participant,
        In (game, participant) rows
        /\ GameParticipant.role participant = role.
Proof.
  unfold Rows.of_role. split.
  - destruct (filter _ rows) as [|[game participant] rs] eqn:E;
      [contradiction|]. intros _.
    assert (Hin : In (game, participant) (filter
             (fun gp => (GameParticipant.role (snd gp) =? role)%string) rows))
      by (rewrite E; now left).
    apply filter_In in Hin. destruct Hin as [Hin Hrole].
    apply String.eqb_eq in Hrole. eauto.
  - intros (game & participant & Hin & Hrole) E.
    assert (Hf : In (game, participant) (filter
             (fun gp => (GameParticipant.role (snd gp) =? role)%string) rows)).
    { apply filter_In. split; [exact Hin|]. now apply String.eqb_eq. }
    now rewrite E in Hf.
Qed.

(** The roles of the dict are the roles of the rows. *)
Lemma keys_group_by_role (rows : list (Game.t * GameParticipant.t))
    (role : string) :
  In role (Py.keys (StatsCog.group_by_role rows))
  <-> exists game participant,
        In (game, participant) rows
        /\ GameParticipant.role participant = role.
Proof.
  rewrite <- of_role_nonempty.
  destruct (in_dec string_dec role (Py.keys (StatsCog.group_by_role rows)))
    as [Hin|Hout].
  - split; [|tauto]. intros _ E.
    apply (proj1 (get_none_iff role (StatsCog.group_by_role rows)));
      [|exact Hin].
    now rewrite get_group_by_role, E.
  - split; [contradiction|]. intros Hne. exfalso.
    apply get_none_iff in Hout. rewrite get_group_by_role in Hout.
    destruct (Rows.of_role role rows); [auto | discriminate].
Qed.

Lemma total_games_record_game (h : list (string * StatsCog.series))
    (gp : Game.t * GameParticipant.t) :
  Rows.total_games (StatsCog.record_game h gp) = S (Rows.total_games h).
Proof.
  destruct gp as [game participant].
  unfold Rows.total_games, StatsCog.record_game.
  rewrite (total_update_default StatsCog.empty_series
             (fun s => List.length (StatsCog.dates s)) _ 0);
    [| reflexivity | intros v; simpl; lia].
  rewrite (total_update_default StatsCog.empty_series
             (fun s => List.length (StatsCog.dates s)) _ 1);
    [lia | reflexivity |].
  intros v. simpl. now rewrite length_app.
Qed.

Lemma total_games_fold_record_game
    (rows : list (Game.t * GameParticipant.t))
    (h : list (string * StatsCog.series)) :
  Rows.total_games (fold_left StatsCog.record_game rows h)
  = (Rows.total_games h + List.length rows)%nat.
Proof.
  revert h. induction rows as [|gp rows IH]; intros h; simpl; [lia|].
  rewrite IH, total_games_record_game. lia.
Qed.

(** ** The query of the games of a player *)

Lemma in_join (games : list Game.t) (participants : list GameParticipant.t)
    (g : Game.t) (p : GameParticipant.t) :
  In (g, p) (StatsCog.join games participants)
  <-> In g games /\ In p participants
      /\ GameParticipant.game_id p = Game.id g.
Proof.
  unfold StatsCog.join. rewrite in_flat_map. split.
  - intros (p' & Hp' & Hin). apply in_map_iff in Hin.
    destruct Hin as (g' & [= <- <-] & Hg'). apply filter_In in Hg'.
    destruct Hg' as [Hg' E]. apply Z.eqb_eq in E. auto.
  - intros (Hg & Hp & E). exists p. split; [exact Hp|].
    apply in_map_iff. exists g. split; [reflexivity|].
    apply filter_In. split; [exact Hg | now apply Z.eqb_eq].
Qed.

Lemma in_participants_query (s : Session.t) (player : Player.t)
    (bound : Time) (g : Game.t) (p : GameParticipant.t) :
  In (g, p) (StatsCog.participants_query s player bound)
  <-> In g (Session.games s) /\ In p (Session.participants s)
      /\ GameParticipant.game_id p = Game.id g
      /\ GameParticipant.player_id p = Player.discord_id player
      /\ bound < Game.date g.
Proof.
  unfold StatsCog.participants_query. rewrite !filter_In, in_join. simpl.
  rewrite Z.eqb_eq, Z.gtb_ltb, Z.ltb_lt. tauto.
Qed.

(** C5: the rows the history query admits are the rows of the player
    whose game is dated strictly after the bound; a game dated at the bound
    itself is left out. *)
Theorem date_filter_strictly_after (s : Session.t) (player : Player.t) :
  (forall bound game participant,
      In (game, participant) (StatsCog.participants_query s player bound)
      <-> In game (Session.games s)
          /\ In participant (Session.participants s)
          /\ GameParticipant.game_id participant = Game.id game
          /\ GameParticipant.player_id participant
             = Player.discord_id player
          /\ bound < Game.date game)
  /\ forall game participant,
       ~ In (game, participant)
           (StatsCog.participants_query s player (Game.date game)).
Proof.
  split.
  - intros bound game participant. apply in_participants_query.
  - intros game participant Hin. apply in_participants_query in Hin. lia.
Qed.

Lemma length_matching_game (p : GameParticipant.t) (bound : Time)
    (games : list Game.t) :
  NoDup (map Game.id games) ->
  List.length
    (filter (fun gp : Game.t * GameParticipant.t =>
               Game.date (fst gp) >? bound)
       (map (fun g => (g, p))
          (filter (fun g => GameParticipant.game_id p =? Game.id g) games)))
  = if existsb
         (fun g =>
            (GameParticipant.game_id p =? Game.id g)
            && (Game.date g >? bound))
         games
    then 1%nat else 0%nat.
Proof.
  induction games as [|g games IH]; intros Hids; [reflexivity|].
  inversion Hids as [|? ? Hfresh Hids']; subst.
  simpl. destruct (Z.eqb_spec (GameParticipant.game_id p) (Game.id g))
    as [E|E]; simpl; [|now apply IH].
  assert (Hnone : filter
                    (fun g' => GameParticipant.game_id p =? Game.id g')
                    games = []).
  { destruct (filter _ games) as [|g' l] eqn:Ef; [reflexivity|].
    assert (Hin : In g' (filter
              (fun g' => GameParticipant.game_id p =? Game.id g') games))
      by (rewrite Ef; now left).
    apply filter_In in Hin. destruct Hin as [Hin Eg'].
    apply Z.eqb_eq in Eg'. exfalso. apply Hfresh.
    rewrite <- E, Eg'. now apply in_map. }
  rewrite Hnone. simpl.
  destruct (Game.date g >? bound); simpl; [reflexivity|].
  specialize (IH Hids'). rewrite Hnone in IH. simpl in IH.
  now rewrite <- IH.
Qed.

Lemma length_query_rows (pid : Z) (bound : Time) (games : list Game.t)
    (participants : list GameParticipant.t) :
  NoDup (map Game.id games) ->
  List.length
    (filter (fun gp : Game.t * GameParticipant.t =>
               Game.date (fst gp) >? bound)
       (filter (fun gp : Game.t * GameParticipant.t =>
                  GameParticipant.player_id (snd gp) =? pid)
          (StatsCog.join games participants)))
  = List.length
      (filter
         (fun p =>
            (GameParticipant.player_id p =? pid)
            && existsb
                 (fun g =>
                    (GameParticipant.game_id p =? Game.id g)
                    && (Game.date g >? bound))
                 games)
         participants).
Proof.
  intros Hids. unfold StatsCog.join.
  induction participants as [|p ps IH]; [reflexivity|].
  simpl flat_map. rewrite !filter_app, length_app, IH. clear IH.
  assert (Eplayer : filter
            (fun gp : Game.t * GameParticipant.t =>
               GameParticipant.player_id (snd gp) =? pid)
            (map (fun g => (g, p))
               (filter (fun g => GameParticipant.game_id p =? Game.id g)
                  games))
          = if GameParticipant.player_id p =? pid
            then map (fun g => (g, p))
                   (filter (fun g => GameParticipant.game_id p =? Game.id g)
                      games)
            else []).
  { induction (filter (fun g => GameParticipant.game_id p =? Game.id g)
                 games) as [|g l IHl]; simpl.
    - now destruct (GameParticipant.player_id p =? pid).
    - rewrite IHl. now destruct (GameParticipant.player_id p =? pid). }
  rewrite Eplayer. cbn [filter].
  destruct (GameParticipant.player_id p =? pid); cbn [andb];
    [|reflexivity].
  rewrite (length_matching_game p bound games Hids).
  now destruct (existsb _ games).
Qed.

(** C6: every row of the query falls in the group of its role and in no
    other, so the games of all the groups add up to the rows of the query;
    with game identifiers that are unique, those are the participant rows
    of the player in games dated after the bound. *)
Theorem games_sum_is_row_count (s : Session.t) (player : Player.t)
    (bound : Time) :
  (forall role,
      Py.get role
        (StatsCog.group_by_role
           (StatsCog.participants_query s player bound))
      = match Rows.of_role role
                (StatsCog.participants_query s player bound) with
        | [] => None
        | rs => Some (Rows.extend StatsCog.empty_series rs)
        end)
  /\ NoDup (Py.keys
              (StatsCog.group_by_role
                 (StatsCog.participants_query s player bound)))
  /\ Rows.total_games
       (StatsCog.group_by_role (StatsCog.participants_query s player bound))
     = List.length (StatsCog.participants_query s player bound)
  /\ (NoDup (map Game.id (Session.games s)) ->
      Rows.total_games
        (StatsCog.group_by_role
           (StatsCog.participants_query s player bound))
      = List.length
          (filter (Rows.qualifies s player bound)
                  (Session.participants s))).
Proof.
  set (rows := StatsCog.participants_query s player bound).
  assert (Htotal : Rows.total_games (StatsCog.group_by_role rows)
                   = List.length rows).
  { unfold StatsCog.group_by_role.
    now rewrite total_games_fold_record_game. }
  split; [intros role; apply get_group_by_role|].
  split; [apply nodup_keys_group_by_role|].
  split; [exact Htotal|].
  intros Hids. rewrite Htotal. unfold rows, StatsCog.participants_query.
  now rewrite length_query_rows.
Qed.

(** ** Closing and plotting the curves *)

Lemma plot_roles_run (clock : nat -> Time)
    (ratings : list (string * PlayerRating.t))
    (items : list (string * StatsCog.series)) (w : world) :
  (forall role, In role (Py.keys items) -> Py.get role ratings <> None) ->
  StatsCog.plot_roles clock ratings items w
  = ({| tick := tick w + List.length items;
        figure := figure w
                  ++ map Rows.line_of
                       (Rows.closed clock ratings (tick w) items) |},
     [], inr (Rows.closed clock ratings (tick w) items)).
Proof.
  revert w. induction items as [|[role s] items IH]; intros w Hrated.
  - simpl. unfold mret. destruct w as [t f]. simpl.
    now rewrite Nat.add_0_r, app_nil_r.
  - simpl StatsCog.plot_roles. simpl Rows.closed.
    destruct (Py.get role ratings) as [rating|] eqn:Er;
      [|exfalso; apply (Hrated role); [now left | exact Er]].
    unfold mbind at 1. unfold StatsCog.now at 1.
    unfold mbind at 1. unfold lift at 1, getitem. rewrite Er.
    unfold ret. unfold mbind at 1. unfold StatsCog.plt_plot at 1.
    unfold mbind at 1.
    rewrite IH by (intros r Hr; apply Hrated; now right).
    unfold mret. cbn [tick figure app map List.length].
    rewrite <- app_assoc. cbn [app].
    replace (tick w + S (List.length items))%nat
      with (S (tick w) + List.length items)%nat by lia.
    reflexivity.
Qed.

Lemma closed_keys (clock : nat -> Time)
    (ratings : list (string * PlayerRating.t)) (k : nat)
    (items : list (string * StatsCog.series)) :
  Py.keys (Rows.closed clock ratings k items) = Py.keys items.
Proof.
  revert k. induction items as [|[role s] items IH]; intros k;
    [reflexivity|].
  simpl. f_equal. apply IH.
Qed.

Lemma in_closed (clock : nat -> Time)
    (ratings : list (string * PlayerRating.t)) (k : nat)
    (items : list (string * StatsCog.series)) (role : string)
    (curve : StatsCog.series) :
  In (role, curve) (Rows.closed clock ratings k items) ->
  exists s j,
    In (role, s) items /\ (k <= j)%nat
    /\ curve
       = StatsCog.append_mmr
           (match Py.get role ratings with
            | Some rating => PlayerRating.mmr rating
            | None => 0
            end)
           (StatsCog.append_date (clock j) s).
Proof.
  revert k. induction items as [|[role0 s0] items IH]; intros k;
    [contradiction|].
  simpl. intros [[= <- <-]|Hin].
  - exists s0, k. auto.
  - destruct (IH _ Hin) as (s & j & Hs & Hj & E).
    exists s, j. split; [now right|]. split; [lia | exact E].
Qed.

Lemma rated_for_keys (player : Player.t)
    (rows : list (Game.t * GameParticipant.t)) :
  Rows.rated_for player rows ->
  forall role,
    In role (Py.keys (StatsCog.group_by_role rows)) ->
    Py.get role (Player.ratings player) <> None.
Proof.
  intros Hrated role Hin. apply keys_group_by_role in Hin.
  destruct Hin as (game & participant & Hin & <-). eauto.
Qed.

Lemma rating_history_run (clock : nat -> Time) (s : Session.t)
    (player : Player.t) (bound : Time) (w : world) :
  Rows.rated_for player (StatsCog.participants_query s player bound) ->
  StatsCog.rating_history clock s player bound w
  = ({| tick := tick w
                + List.length
                    (StatsCog.group_by_role
                       (StatsCog.participants_query s player bound));
        figure := figure w
                  ++ map Rows.line_of
                       (Rows.closed clock (Player.ratings player) (tick w)
                          (StatsCog.group_by_role
                             (StatsCog.participants_query s player bound)))
     |},
     [SessionQuery (GamesOfPlayer (Player.discord_id player) bound)],
     inr (Rows.closed clock (Player.ratings player) (tick w)
            (StatsCog.group_by_role
               (StatsCog.participants_query s player bound)))).
Proof.
  intros Hrated. unfold StatsCog.rating_history, mbind, emit.
  rewrite plot_roles_run by (now apply rated_for_keys).
  reflexivity.
Qed.

(** ** The order of the dates of a curve *)

Lemma strongly_sorted_app {A : Type} (R : A -> A -> Prop) (l l' : list A) :
  StronglySorted R l -> StronglySorted R l' ->
  (forall x y, In x l -> In y l' -> R x y) ->
  StronglySorted R (l ++ l').
Proof.
  intros Hl Hl' Hcross. induction Hl as [|x l Hl IH Hall]; [exact Hl'|].
  simpl. constructor.
  - apply IH. intros a b Ha. apply Hcross. now right.
  - apply Forall_app. split; [exact Hall|].
    apply Forall_forall. intros y Hy. apply Hcross; [now left | exact Hy].
Qed.

Lemma strongly_sorted_filter {A : Type} (R : A -> A -> Prop)
    (P : A -> bool) (l : list A) :
  StronglySorted R l -> StronglySorted R (filter P l).
Proof.
  induction 1 as [|x l Hl IH Hall]; simpl; [constructor|].
  destruct (P x); [|exact IH]. constructor; [exact IH|].
  rewrite Forall_forall in *. intros y Hy. apply filter_In in Hy.
  now apply Hall.
Qed.

Lemma strongly_sorted_map {A B : Type} (R : B -> B -> Prop) (f : A -> B)
    (l : list A) :
  StronglySorted (fun a b => R (f a) (f b)) l -> StronglySorted R (map f l).
Proof.
  induction 1 as [|x l Hl IH Hall]; simpl; constructor; [exact IH|].
  rewrite Forall_forall in *. intros y Hy. apply in_map_iff in Hy.
  destruct Hy as (a & <- & Ha). auto.
Qed.

Lemma curve_dates_chronological (rows : list (Game.t * GameParticipant.t))
    (role : string) :
  Rows.chronological rows ->
  StronglySorted Z.le (Rows.game_dates (Rows.of_role role rows)).
Proof.
  intros Hs. unfold Rows.game_dates, Rows.of_role.
  apply strongly_sorted_map. now apply strongly_sorted_filter.
Qed.

(** ** The rating history *)

(** C3, as the code has it: the roles of the rating history are the roles
    of the player's games after the bound, each once. A role without such
    a game is absent, whether or not the player has a rating for it. *)
Theorem rating_history_roles_are_roles_played (clock : nat -> Time)
    (s : Session.t) (player : Player.t) (bound : Time) (w : world) :
  Rows.rated_for player (StatsCog.participants_query s player bound) ->
  exists h,
    outcome (StatsCog.rating_history clock s player bound w) = inr h
    /\ NoDup (Py.keys h)
    /\ forall role,
         In role (Py.keys h)
         <-> exists game participant,
               In (game, participant)
                  (StatsCog.participants_query s player bound)
               /\ GameParticipant.role participant = role.
Proof.
  intros Hrated.
  set (rows := StatsCog.participants_query s player bound) in *.
  exists (Rows.closed clock (Player.ratings player) (tick w)
            (StatsCog.group_by_role rows)).
  split; [now rewrite rating_history_run|].
  rewrite closed_keys. split; [apply nodup_keys_group_by_role|].
  intros role. apply keys_group_by_role.
Qed.

Lemma sample_rated_for :
  Rows.rated_for Sample.player7_seeded
    (StatsCog.participants_query Sample.store Sample.player7_seeded 0).
Proof.
  intros game participant Hin. vm_compute in Hin.
  destruct Hin as [[= <- <-]|[[= <- <-]|[[= <- <-]|[]]]]; discriminate.
Defined.

Lemma rating_history_roles_are_roles_played_witness :
  exists h,
    outcome (StatsCog.rating_history Sample.clock Sample.store
               Sample.player7_seeded 0 Sample.world0) = inr h
    /\ NoDup (Py.keys h)
    /\ forall role,
         In role (Py.keys h)
         <-> exists game participant,
               In (game, participant)
                  (StatsCog.participants_query Sample.store
                     Sample.player7_seeded 0)
               /\ GameParticipant.role participant = role.
Proof.
  exact (rating_history_roles_are_roles_played Sample.clock Sample.store
           Sample.player7_seeded 0 Sample.world0 sample_rated_for).
Defined.

(** C3, as stated, fails: the player of [Sample.player7_seeded] has a
    rating for "top" and no game in it, and the rating history holds the
    curves of "support" and "mid" only. *)
Lemma rating_history_skips_role_without_games :
  Py.get "top" (Player.ratings Sample.player7_seeded)
  = Some Sample.rating_top
  /\ outcome (StatsCog.rating_history Sample.clock Sample.store
                Sample.player7_seeded 0 Sample.world0)
     = inr [("support"%string,
             {| StatsCog.dates := [100; 300; 1000];
                StatsCog.mmr_values := [1480; 1490; 1500] |});
            ("mid"%string,
             {| StatsCog.dates := [200; 1001];
                StatsCog.mmr_values := [1440; 1450] |})]
  /\ ~ (forall clock s player bound w role,
           Py.get role (Player.ratings player) <> None ->
           exists h,
             outcome (StatsCog.rating_history clock s player bound w)
             = inr h
             /\ In role (Py.keys h)).
Proof.
  split; [reflexivity|]. split; [reflexivity|].
  intros H.
  destruct (H Sample.clock Sample.store Sample.player7_seeded 0
              Sample.world0 "top"%string) as (h & Eh & Hin);
    [discriminate|].
  vm_compute in Eh. injection Eh as <-.
  simpl in Hin. repeat destruct Hin as [Hin|Hin]; discriminate || auto.
Qed.

(** C4, as the code has it: every curve of the rating history is made of
    the dates and rating snapshots of the games of its role, in the order
    in which the query yields them, and of one more point: a reading of
    the clock made during the call and the player's current rating for the
    role. When the query yields the rows in the order of the dates of
    their games and no game is dated after the clock, the dates of the
    curve never decrease. *)
Theorem rating_history_ends_now_in_order (clock : nat -> Time)
    (s : Session.t) (player : Player.t) (bound : Time) (w : world) :
  Rows.rated_for player (StatsCog.participants_query s player bound) ->
  exists h,
    outcome (StatsCog.rating_history clock s player bound w) = inr h
    /\ forall role curve,
         In (role, curve) h ->
         exists k rating,
           (tick w <= k)%nat
           /\ Py.get role (Player.ratings player) = Some rating
           /\ StatsCog.dates curve
              = Rows.game_dates
                  (Rows.of_role role
                     (StatsCog.participants_query s player bound))
                ++ [clock k]
           /\ StatsCog.mmr_values curve
              = Rows.snapshots
                  (Rows.of_role role
                     (StatsCog.participants_query s player bound))
                ++ [PlayerRating.mmr rating]
           /\ (Rows.chronological
                 (StatsCog.participants_query s player bound) ->
               Rows.played_before clock (tick w) s ->
               StronglySorted Z.le (StatsCog.dates curve)).
Proof.
  intros Hrated.
  set (rows := StatsCog.participants_query s player bound) in *.
  exists (Rows.closed clock (Player.ratings player) (tick w)
            (StatsCog.group_by_role rows)).
  split; [now rewrite rating_history_run|].
  intros role curve Hin. apply in_closed in Hin.
  destruct Hin as (s0 & k & Hs0 & Hk & ->).
  assert (Hkey : In role (Py.keys (StatsCog.group_by_role rows))).
  { unfold Py.keys. change role with (fst (role, s0)). now apply in_map. }
  pose proof (rated_for_keys player rows Hrated role Hkey) as Hr.
  destruct (Py.get role (Player.ratings player)) as [rating|] eqn:Er;
    [clear Hr | contradiction].
  apply in_get in Hs0; [|apply nodup_keys_group_by_role].
  rewrite get_group_by_role in Hs0.
  assert (Es0 : s0 = Rows.extend StatsCog.empty_series
                       (Rows.of_role role rows)).
  { destruct (Rows.of_role role rows); [discriminate|]. now injection Hs0. }
  subst s0. exists k, rating. simpl.
  split; [exact Hk|]. split; [reflexivity|]. split; [reflexivity|].
  split; [reflexivity|].
  intros Hchrono Hbefore. apply strongly_sorted_app.
  - now apply curve_dates_chronological.
  - repeat constructor.
  - intros x y Hx [<-|[]]. unfold Rows.game_dates, Rows.of_role in Hx.
    apply in_map_iff in Hx. destruct Hx as ([game participant] & <- & Hgp).
    apply filter_In in Hgp. destruct Hgp as [Hgp _].
    apply in_participants_query in Hgp. simpl.
    apply (Hbefore game k); [tauto | exact Hk].
Qed.

Lemma games_sum_is_row_count_witness :
  NoDup (map Game.id (Session.games Sample.store))
  /\ Rows.total_games
       (StatsCog.group_by_role
          (StatsCog.participants_query Sample.store Sample.player7_seeded 0))
     = 3%nat
  /\ List.length
       (filter (Rows.qualifies Sample.store Sample.player7_seeded 0)
          (Session.participants Sample.store))
     = 3%nat.
Proof.
  assert (Hids : NoDup (map Game.id (Session.games Sample.store))).
  { simpl. repeat constructor; simpl; intuition discriminate. }
  split; [exact Hids|]. split; [|reflexivity].
  rewrite (proj2 (proj2 (proj2
             (games_sum_is_row_count Sample.store Sample.player7_seeded 0)))
             Hids).
  reflexivity.
Defined.

Lemma sample_chronological :
  Rows.chronological
    (StatsCog.participants_query Sample.store Sample.player7_seeded 0).
Proof.
  unfold Rows.chronological.
  change (StatsCog.participants_query Sample.store Sample.player7_seeded 0)
    with [(Sample.game1, Sample.row1); (Sample.game2, Sample.row2);
          (Sample.game3, Sample.row3)].
  repeat constructor; cbv; discriminate.
Defined.

Lemma sample_played_before :
  Rows.played_before Sample.clock 0 Sample.store.
Proof.
  intros g j [<-|[<-|[<-|[]]]] _;
    cbv [Game.date Sample.game1 Sample.game2 Sample.game3 Sample.clock];
    lia.
Defined.

Lemma rating_history_ends_now_in_order_witness :
  exists h,
    outcome (StatsCog.rating_history Sample.clock Sample.store
               Sample.player7_seeded 0 Sample.world0) = inr h
    /\ forall role curve,
         In (role, curve) h ->
         (exists rating,
             Py.get role (Player.ratings Sample.player7_seeded)
             = Some rating
             /\ last (StatsCog.mmr_values curve) 0
                = PlayerRating.mmr rating)
         /\ StronglySorted Z.le (StatsCog.dates curve).
Proof.
  destruct (rating_history_ends_now_in_order Sample.clock Sample.store
              Sample.player7_seeded 0 Sample.world0 sample_rated_for)
    as (h & Eh & Hall).
  exists h. split; [exact Eh|].
  intros role curve Hin.
  destruct (Hall role curve Hin) as (k & rating & _ & Er & _ & Em & Hsorted).
  split.
  - exists rating. split; [exact Er|]. rewrite Em. apply last_last.
  - exact (Hsorted sample_chronological sample_played_before).
Defined.

(** C4, as stated, fails: the points of a curve stand in the order of the
    query, which has no [ORDER BY]. With the participant rows of
    [Sample.store_latest_first], yielded latest first, the dates of the
    "support" curve go down before the last point. *)
Lemma rating_history_follows_store_order :
  outcome (StatsCog.rating_history Sample.clock Sample.store_latest_first
             Sample.player7_seeded 0 Sample.world0)
  = inr [("support"%string,
          {| StatsCog.dates := [300; 100; 1000];
             StatsCog.mmr_values := [1490; 1480; 1500] |});
         ("mid"%string,
          {| StatsCog.dates := [200; 1001];
             StatsCog.mmr_values := [1440; 1450] |})]
  /\ ~ StronglySorted Z.le [300; 100; 1000]
  /\ ~ (forall clock s player bound w h role curve,
           outcome (StatsCog.rating_history clock s player bound w) = inr h ->
           In (role, curve) h ->
           StronglySorted Z.le (StatsCog.dates curve)).
Proof.
  assert (Hdown : ~ StronglySorted Z.le [300; 100; 1000]).
  { intros H. inversion H as [|? ? _ Hall]; subst.
    inversion Hall as [|? ? Hle _]; subst. lia. }
  split; [reflexivity|]. split; [exact Hdown|].
  intros H. apply Hdown.
  apply (H Sample.clock Sample.store_latest_first Sample.player7_seeded 0
           Sample.world0 _ "support"%string
           {| StatsCog.dates := [300; 100; 1000];
              StatsCog.mmr_values := [1490; 1480; 1500] |} eq_refl).
  now left.
Qed.

(** A role played without a rating for it ends the command on
    [KeyError]. *)
Lemma rating_history_unrated_role_raises :
  outcome (StatsCog.rating_history Sample.clock Sample.store
             Sample.player7 0 Sample.world0)
  = inl KeyError.
Proof. reflexivity. Qed.

(** ** What the answers depend on *)

Lemma closed_timeless (clock : nat -> Time)
    (ratings : list (string * PlayerRating.t)) (k : nat)
    (items : list (string * StatsCog.series)) :
  map Rows.timeless (Rows.closed clock ratings k items)
  = map (fun kv : string * StatsCog.series =>
           (fst kv, (StatsCog.dates (snd kv), StatsCog.mmr_values (snd kv)),
            match Py.get (fst kv) ratings with
            | Some rating => PlayerRating.mmr rating
            | None => 0
            end))
        items.
Proof.
  revert k. induction items as [|[role s] items IH]; intros k;
    [reflexivity|].
  simpl. rewrite IH. f_equal.
  unfold Rows.timeless, Rows.past. simpl.
  now rewrite !removelast_last, last_last.
Qed.

Lemma closed_ext (clock1 clock2 : nat -> Time)
    (ratings : list (string * PlayerRating.t)) (k1 k2 : nat)
    (items : list (string * StatsCog.series)) :
  (forall j, clock1 (k1 + j)%nat = clock2 (k2 + j)%nat) ->
  Rows.closed clock1 ratings k1 items = Rows.closed clock2 ratings k2 items.
Proof.
  revert k1 k2. induction items as [|[role s] items IH]; intros k1 k2 H;
    [reflexivity|].
  simpl. rewrite (IH (S k1) (S k2)).
  - specialize (H 0%nat). rewrite !Nat.add_0_r in H. now rewrite H.
  - intros j. specialize (H (S j)).
    now rewrite !Nat.add_succ_r in H.
Qed.

(** C9, as stated, fails: the same rating history asked twice in a row, of
    the same store and with the same arguments, gives two different
    answers, since each curve ends at the time of its own call. Without a
    [date_start] the bound itself, one month before the call, moves
    between the two calls: on [Sample.store_month] the first call shows the
    game played as top and the second does not. *)
Lemma rating_history_changes_with_time :
  (trace (StatsCog.mmr_history Sample.dateparser_parse Sample.clock
            Sample.store_month Sample.player7_seeded None Sample.world0)
   = [SessionQuery (GamesOfPlayer 7 (-2591000));
      CtxSend
        (File
           [([-2590998; 1001], [1590; 1600]);
            ([100; 300; 1002], [1480; 1490; 1500]);
            ([200; 1003], [1440; 1450])]
           ["top"; "support"; "mid"]%string
           "MMR variation in the last month for P")]
   /\ trace (StatsCog.mmr_history Sample.dateparser_parse Sample.clock
               Sample.store_month Sample.player7_seeded None
               (world_after
                  (StatsCog.mmr_history Sample.dateparser_parse
                     Sample.clock Sample.store_month
                     Sample.player7_seeded None Sample.world0)))
      = [SessionQuery (GamesOfPlayer 7 (-2590996));
         CtxSend
           (File
              [([-2590998; 1001], [1590; 1600]);
               ([100; 300; 1002], [1480; 1490; 1500]);
               ([200; 1003], [1440; 1450]);
               ([100; 300; 1005], [1480; 1490; 1500]);
               ([200; 1006], [1440; 1450])]
              ["support"; "mid"]%string
              "MMR variation in the last month for P")])
  /\
  outcome (StatsCog.rating_history Sample.clock Sample.store
             Sample.player7_seeded 0 Sample.world0)
  <> outcome (StatsCog.rating_history Sample.clock Sample.store
                Sample.player7_seeded 0
                (world_after
                   (StatsCog.rating_history Sample.clock Sample.store
                      Sample.player7_seeded 0 Sample.world0)))
  /\ trace (StatsCog.mmr_history Sample.dateparser_parse Sample.clock
              Sample.store Sample.player7_seeded (Some "epoch"%string)
              Sample.world0)
     <> trace (StatsCog.mmr_history Sample.dateparser_parse Sample.clock
                 Sample.store Sample.player7_seeded (Some "epoch"%string)
                 (world_after
                    (StatsCog.mmr_history Sample.dateparser_parse
                       Sample.clock Sample.store Sample.player7_seeded
                       (Some "epoch"%string) Sample.world0))).
Proof.
  split; [split; reflexivity|].
  split; vm_compute; intros H; discriminate H.
Qed.

(** The figure is never cleared: with the clock stopped, the file sent by
    a second call still holds the lines of the first. *)
Lemma mmr_history_figure_keeps_earlier_lines :
  trace (StatsCog.mmr_history Sample.dateparser_parse (fun _ => 1000)
           Sample.store Sample.player7_seeded (Some "epoch"%string)
           Sample.world0)
  = [SessionQuery (GamesOfPlayer 7 0);
     CtxSend
       (File [([100; 300; 1000], [1480; 1490; 1500]);
              ([200; 1000], [1440; 1450])]
          ["support"; "mid"]%string
          "MMR variation in the last month for P")]
  /\ trace (StatsCog.mmr_history Sample.dateparser_parse (fun _ => 1000)
              Sample.store Sample.player7_seeded (Some "epoch"%string)
              (world_after
                 (StatsCog.mmr_history Sample.dateparser_parse
                    (fun _ => 1000) Sample.store Sample.player7_seeded
                    (Some "epoch"%string) Sample.world0)))
     = [SessionQuery (GamesOfPlayer 7 0);
        CtxSend
          (File [([100; 300; 1000], [1480; 1490; 1500]);
                 ([200; 1000], [1440; 1450]);
                 ([100; 300; 1000], [1480; 1490; 1500]);
                 ([200; 1000], [1440; 1450])]
             ["support"; "mid"]%string
             "MMR variation in the last month for P")].
Proof. split; reflexivity. Qed.

(** A bound that cannot be read ends [mmr_history] before any query. *)
Lemma mmr_history_unreadable_bound :
  StatsCog.mmr_history Sample.dateparser_parse Sample.clock Sample.store
    Sample.player7_seeded (Some "soon"%string) Sample.world0
  = ({| tick := 1; figure := [] |}, [], inl ArgumentError).
Proof. reflexivity. Qed.

(** ** More on the ordinals *)

Lemma suffix_length (n : N) : String.length (Inflect.suffix n) = 2%nat.
Proof.
  unfold Inflect.suffix.
  destruct ((n mod 100 =? 11) || (n mod 100 =? 12) || (n mod 100 =? 13))%N;
    [reflexivity|].
  destruct (n mod 10)%N as [|[[[]|[]|]|[[]|[]|]|]]; reflexivity.
Qed.

Lemma string_length_append (s t : string) :
  String.length (s ++ t) = (String.length s + String.length t)%nat.
Proof. induction s as [|c s IH]; simpl; [reflexivity | now rewrite IH]. Qed.

Lemma string_append_cancel (s1 s2 t1 t2 : string) :
  String.length t1 = String.length t2 ->
  (s1 ++ t1)%string = (s2 ++ t2)%string -> s1 = s2.
Proof.
  intros Hlen. revert s2.
  induction s1 as [|c1 s1 IH]; intros [|c2 s2] H; simpl in H.
  - reflexivity.
  - exfalso. apply (f_equal String.length) in H. simpl in H.
    rewrite string_length_append in H. lia.
  - exfalso. apply (f_equal String.length) in H. simpl in H.
    rewrite string_length_append in H. lia.
  - injection H as -> H. f_equal. now apply IH.
Qed.

Lemma to_uint_nonnil (n : N) : N.to_uint n <> Decimal.Nil.
Proof.
  destruct n as [|p]; [discriminate|].
  apply DecimalPos.Unsigned.to_uint_nonnil.
Qed.

(** Two counts with the same ordinal are the same count. *)
Lemma ordinal_inj (a b : N) :
  Inflect.ordinal a = Inflect.ordinal b -> a = b.
Proof.
  unfold Inflect.ordinal. intros H.
  apply string_append_cancel in H; [|now rewrite !suffix_length].
  apply DecimalN.Unsigned.to_uint_inj.
  assert (E : Some (N.to_uint a) = Some (N.to_uint b)).
  { rewrite <- (NilZero.usu (N.to_uint a)) by apply to_uint_nonnil.
    rewrite <- (NilZero.usu (N.to_uint b)) by apply to_uint_nonnil.
    now rewrite H. }
  now injection E.
Qed.

(** ** More on the leaderboard *)

Lemma enumerate_from_ranks {A : Type} (n : N) (l : list A) :
  map (fun x : N * A => Inflect.ordinal (fst x + 1)) (Py.enumerate_from n l)
  = map (fun i => Inflect.ordinal (N.of_nat i))
        (seq (S (N.to_nat n)) (List.length l)).
Proof.
  revert n. induction l as [|x l IH]; intros n; [reflexivity|].
  simpl. rewrite IH. f_equal.
  - f_equal. lia.
  - now rewrite N2Nat.inj_succ.
Qed.

Lemma nodup_map_inj {A B : Type} (f : A -> B) (l : list A) :
  (forall a b, f a = f b -> a = b) -> NoDup l -> NoDup (map f l).
Proof.
  intros Hf. induction 1 as [|x l Hx Hl IH]; simpl; constructor; auto.
  intros Hin. apply in_map_iff in Hin. destruct Hin as (y & E & Hy).
  apply Hf in E. now subst y.
Qed.

Lemma ordinals_nodup (n : nat) : NoDup (Shape.ordinals n).
Proof.
  unfold Shape.ordinals. apply nodup_map_inj; [|apply seq_NoDup].
  intros a b H. apply ordinal_inj in H. lia.
Qed.

(** The [Rank] column of the leaderboard counts the rows from "1st" on, in
    the order of the table: no two rows show the same rank, whatever their
    ratings. *)
Theorem ranking_ranks_by_position (player_name : Z -> string)
    (get_games : PlayerRating.t -> Z) (s : Session.t) (role : string) :
  Shape.column 0 (StatsCog.ranking_table player_name get_games s role)
  = map CStr
      (Shape.ordinals (List.length (StatsCog.role_ranking s role)))
  /\ NoDup
       (Shape.column 0 (StatsCog.ranking_table player_name get_games s role)).
Proof.
  assert (E : Shape.column 0
                (StatsCog.ranking_table player_name get_games s role)
              = map CStr
                  (Shape.ordinals
                     (List.length (StatsCog.role_ranking s role)))).
  { unfold Shape.column, StatsCog.ranking_table, Shape.ordinals,
      Py.enumerate. simpl tl. rewrite map_map.
    rewrite <- (enumerate_from_ranks 0%N), map_map.
    apply map_ext. now intros [rank rating]. }
  split; [exact E|]. rewrite E.
  apply nodup_map_inj; [|apply ordinals_nodup].
  now intros a b [= ->].
Qed.

(** The leaderboard lists rating rows of the asked role only, and all of
    them when the role has at most twenty. *)
Theorem ranking_lists_the_role (s : Session.t) (role : string) :
  (forall r,
      In r (StatsCog.role_ranking s role) ->
      In r (Session.player_ratings s) /\ PlayerRating.role r = role)
  /\ ((List.length
         (filter (fun r => (PlayerRating.role r =? role)%string)
            (Session.player_ratings s)) <= 20)%nat ->
      Permutation (StatsCog.role_ranking s role)
        (filter (fun r => (PlayerRating.role r =? role)%string)
           (Session.player_ratings s))).
Proof.
  unfold StatsCog.role_ranking. split.
  - intros r Hr.
    assert (Hin : In r (StatsCog.order_by_mmr_desc
                          (filter
                             (fun r => (PlayerRating.role r =? role)%string)
                             (Session.player_ratings s)))).
    { rewrite <- (firstn_skipn 20). apply in_or_app. now left. }
    apply in_sorted, filter_In in Hin. destruct Hin as [Hin E].
    split; [exact Hin | now apply String.eqb_eq].
  - intros Hlen. rewrite firstn_all2.
    + apply sorted_perm.
    + unfold StatsCog.order_by_mmr_desc. now rewrite sorted_length.
Qed.

Lemma ranking_lists_the_role_witness :
  Permutation (StatsCog.role_ranking Sample.tied_ab "jungle")
    [Sample.rating_c; Sample.rating_a; Sample.rating_b].
Proof.
  apply (proj2 (ranking_lists_the_role Sample.tied_ab "jungle")).
  simpl. lia.
Defined.

Lemma strongly_sorted_app_inv {A : Type} (R : A -> A -> Prop)
    (l l' : list A) :
  StronglySorted R (l ++ l') ->
  forall x y, In x l -> In y l' -> R x y.
Proof.
  induction l as [|a l IH]; simpl; intros Hs x y Hx Hy; [contradiction|].
  inversion Hs as [|? ? Hs' Hall]; subst.
  destruct Hx as [<-|Hx]; [|now apply IH].
  rewrite Forall_forall in Hall. apply Hall, in_or_app. now right.
Qed.

(** The cut at twenty is by rating: the rows of the role left out of the
    leaderboard have ratings no higher than any row listed, and rows are
    left out only of a leaderboard of twenty. *)
Theorem ranking_leaves_out_the_lowest (s : Session.t) (role : string) :
  exists rest,
    Permutation (StatsCog.role_ranking s role ++ rest)
      (filter (fun r => (PlayerRating.role r =? role)%string)
         (Session.player_ratings s))
    /\ (forall x y,
           In x (StatsCog.role_ranking s role) -> In y rest ->
           PlayerRating.mmr x >= PlayerRating.mmr y)
    /\ (rest = [] \/ List.length (StatsCog.role_ranking s role) = 20%nat).
Proof.
  unfold StatsCog.role_ranking.
  set (rows := filter (fun r => (PlayerRating.role r =? role)%string)
                 (Session.player_ratings s)).
  exists (skipn 20 (StatsCog.order_by_mmr_desc rows)).
  split; [|split].
  - rewrite firstn_skipn. apply sorted_perm.
  - apply strongly_sorted_app_inv. rewrite firstn_skipn.
    apply order_by_mmr_desc_sorted.
  - destruct (Nat.le_gt_cases
                (List.length (StatsCog.order_by_mmr_desc rows)) 20)
      as [Hle|Hgt].
    + left. now apply skipn_all2.
    + right. rewrite length_firstn. lia.
Qed.

(** ** More on the ranks of a player *)

Lemma string_leb_refl (t : string) : String.leb t t = true.
Proof.
  unfold String.leb.
  assert (E : String.compare t t = Eq).
  { induction t as [|c t IH]; simpl; [reflexivity|].
    now rewrite ascii_compare_refl. }
  now rewrite E.
Qed.

(** [rank] shows one row per rating of the player; two roles show the same
    rank text exactly when their ranks are the same number, and such roles
    stay in the order of [player.ratings]. *)
Theorem rank_keeps_rows_and_order_of_ties
    (get_rank : PlayerRating.t -> N) (player : Player.t) (w : world) :
  StatsCog.rank get_rank player w
  = (w,
     [CtxSend
        (Tabulate
           (Shape.rank_header
              :: map Shape.rank_cells
                   (StatsCog.rank_sorted get_rank player)))],
     inr tt)
  /\ List.length (StatsCog.rank_table get_rank player)
     = S (List.length (Player.ratings player))
  /\ (forall kv kv',
         snd (StatsCog.rank_row get_rank kv)
         = snd (StatsCog.rank_row get_rank kv')
         <-> get_rank (snd kv) = get_rank (snd kv'))
  /\ forall t,
       filter (fun x : string * string => (snd x =? t)%string)
         (StatsCog.rank_sorted get_rank player)
       = filter (fun x : string * string => (snd x =? t)%string)
           (StatsCog.rank_rows get_rank player).
Proof.
  split; [reflexivity|]. split; [|split].
  - unfold StatsCog.rank_table, StatsCog.rank_sorted, StatsCog.rank_rows.
    simpl. now rewrite !length_map, sorted_length, length_map.
  - intros kv kv'. simpl. split; [apply ordinal_inj | now intros ->].
  - intros t. apply sorted_filter. intros a b Ha Hb.
    apply String.eqb_eq in Ha, Hb. rewrite Ha, Hb. apply string_leb_refl.
Qed.

Lemma ordinal_order_same_digits (a b : N) :
  (a < 100)%N -> (b < 100)%N -> Shape.digits a = Shape.digits b ->
  String.leb (Inflect.ordinal a) (Inflect.ordinal b) = N.leb a b.
Proof.
  intros Ha Hb Hd.
  assert (H : forallb
                (fun x =>
                   forallb
                     (fun y =>
                        implb
                          (Shape.digits (N.of_nat x)
                           =? Shape.digits (N.of_nat y))%nat
                          (Bool.eqb
                             (String.leb (Inflect.ordinal (N.of_nat x))
                                (Inflect.ordinal (N.of_nat y)))
                             (N.leb (N.of_nat x) (N.of_nat y))))
                     (seq 0 100))
                (seq 0 100) = true)
    by (vm_compute; reflexivity).
  rewrite forallb_forall in H.
  assert (Hina : In (N.to_nat a) (seq 0 100)) by (apply in_seq; lia).
  assert (Hinb : In (N.to_nat b) (seq 0 100)) by (apply in_seq; lia).
  specialize (H (N.to_nat a) Hina). rewrite forallb_forall in H.
  specialize (H (N.to_nat b) Hinb).
  rewrite !N2Nat.id, Hd, Nat.eqb_refl in H.
  now apply Bool.eqb_prop.
Qed.

(** Below the hundredth, the text order of [rank] goes wrong only between
    ranks of different lengths: when all the ranks of the player have as
    many digits, the rows stand in the order of the ranks as numbers. *)
Theorem rank_order_numeric_within_same_digits
    (get_rank : PlayerRating.t -> N) (player : Player.t) (w : world) :
  (forall kv, In kv (Player.ratings player) ->
              (get_rank (snd kv) < 100)%N) ->
  (forall kv kv',
      In kv (Player.ratings player) -> In kv' (Player.ratings player) ->
      Shape.digits (get_rank (snd kv)) = Shape.digits (get_rank (snd kv'))) ->
  StatsCog.rank_sorted get_rank player
  = StatsCog.rank_sorted_by_number get_rank player
  /\ StatsCog.rank get_rank player w
     = (w,
        [CtxSend
           (Tabulate
              (Shape.rank_header
                 :: map Shape.rank_cells
                      (StatsCog.rank_sorted_by_number get_rank player)))],
        inr tt).
Proof.
  intros Hsmall Hdigits.
  assert (E : StatsCog.rank_sorted get_rank player
              = StatsCog.rank_sorted_by_number get_rank player).
  { unfold StatsCog.rank_sorted, StatsCog.rank_rows,
      StatsCog.rank_sorted_by_number.
    rewrite sorted_map. f_equal.
    apply sorted_ext. intros x y Hx Hy. simpl.
    apply ordinal_order_same_digits; auto. }
  split; [exact E|]. rewrite <- E. reflexivity.
Qed.

Lemma rank_order_numeric_within_same_digits_witness :
  StatsCog.rank_sorted Sample.rank_12_and_45 Sample.player7
  = StatsCog.rank_sorted_by_number Sample.rank_12_and_45 Sample.player7
  /\ trace (StatsCog.rank Sample.rank_12_and_45 Sample.player7
              Sample.world0)
     = [CtxSend
          (Tabulate
             [[CStr "Role"; CStr "Rank"]; [CStr "Mid"; CStr "12th"];
              [CStr "Top"; CStr "45th"]])].
Proof.
  destruct (rank_order_numeric_within_same_digits Sample.rank_12_and_45
              Sample.player7 Sample.world0) as [E Erun].
  - intros kv [<-|[<-|[]]]; vm_compute; reflexivity.
  - intros kv kv' [<-|[<-|[]]] [<-|[<-|[]]]; reflexivity.
  - split; [exact E|]. rewrite Erun. reflexivity.
Defined.

(** ** More on the statistics tables *)

Lemma mapM_forall2 {A B : Type} (f : A -> result B) (l : list A)
    (ys : list B) :
  mapM f l = inr ys -> Forall2 (fun x y => f x = inr y) l ys.
Proof.
  revert ys. induction l as [|x l IH]; simpl; intros ys.
  - intros [= <-]. constructor.
  - unfold bind at 1. destruct (f x) as [e|y] eqn:Ex; [discriminate|].
    unfold bind. destruct (mapM f l) as [e|ys'] eqn:El; [discriminate|].
    intros [= <-]. constructor; auto.
Qed.

Lemma mapM_first_error {A B : Type} (f : A -> result B) (ok : list A)
    (x : A) (rest : list A) (e : error) :
  (forall a, In a ok -> exists b, f a = inr b) ->
  f x = inl e ->
  mapM f (ok ++ x :: rest) = inl e.
Proof.
  intros Hok Hx. induction ok as [|a ok IH]; simpl.
  - now rewrite Hx.
  - destruct (Hok a (or_introl eq_refl)) as [b Eb]. rewrite Eb. simpl.
    rewrite IH; [reflexivity|]. intros a' Ha'. apply Hok. now right.
Qed.

Lemma mmr_row_ok (player : Player.t) (role : string) (st : RoleStats.t) :
  (exists y, StatsCog.mmr_row player (role, st) = inr y)
  <-> Py.get role (Player.ratings player) <> None
      /\ RoleStats.games st <> 0.
Proof.
  unfold StatsCog.mmr_row, getitem, StatsCog.winrate.
  destruct (Py.get role (Player.ratings player)) as [rating|]; simpl.
  - destruct (Z.eqb_spec (RoleStats.games st) 0) as [E|E]; simpl.
    + split; [intros [y [=]] | intros [_ H]; contradiction].
    + split; [intros _; split; [discriminate | exact E] | eauto].
  - split; [intros [y [=]] | intros [H _]; contradiction].
Qed.

Lemma mmr_row_error (player : Player.t) (kv : string * RoleStats.t)
    (e : error) :
  StatsCog.mmr_row player kv = inl e ->
  e = KeyError \/ e = ZeroDivisionError.
Proof.
  destruct kv as [role st].
  unfold StatsCog.mmr_row, getitem, StatsCog.winrate.
  destruct (Py.get role (Player.ratings player)); simpl;
    [|intros [= <-]; now left].
  destruct (RoleStats.games st =? 0); simpl; [|discriminate].
  intros [= <-]. now right.
Qed.

(** The table of the roles is sent whole or not at all, and the world is
    left as it was found. *)
Lemma send_roles_stats_table_or_nothing (player : Player.t)
    (stats : list (string * RoleStats.t)) (w : world) :
  world_after (StatsCog.send_roles_stats player stats w) = w
  /\ ((outcome (StatsCog.send_roles_stats player stats w) = inr tt
       /\ exists tb,
            trace (StatsCog.send_roles_stats player stats w) = [CtxSend (Tabulate tb)]
            /\ List.length tb = S (List.length stats))
      \/ (trace (StatsCog.send_roles_stats player stats w) = []
          /\ (outcome (StatsCog.send_roles_stats player stats w) = inl KeyError
              \/ outcome (StatsCog.send_roles_stats player stats w)
                 = inl ZeroDivisionError))).
Proof.
  unfold StatsCog.send_roles_stats, mbind, lift, ctx_send, emit, world_after, outcome,
    trace.
  destruct (StatsCog.mmr_rows player stats) as [e|rows] eqn:E; simpl.
  - split; [reflexivity|]. right. split; [reflexivity|].
    apply mapM_error in E. destruct E as (kv & _ & Hkv).
    apply mmr_row_error in Hkv. destruct Hkv as [-> | ->]; auto.
  - split; [reflexivity|]. left. split; [reflexivity|].
    eexists. split; [reflexivity|]. simpl.
    rewrite length_map, sorted_length.
    apply mapM_forall2, Forall2_length in E. now rewrite E.
Qed.

(** The table of the roles is sent exactly when every role of the
    statistics has a rating of the player and at least one game. *)
Lemma send_roles_stats_succeeds_iff (player : Player.t)
    (stats : list (string * RoleStats.t)) (w : world) :
  outcome (StatsCog.send_roles_stats player stats w) = inr tt
  <-> forall role st,
        In (role, st) stats ->
        Py.get role (Player.ratings player) <> None
        /\ RoleStats.games st <> 0.
Proof.
  rewrite send_roles_stats_outcome. split.
  - destruct (StatsCog.mmr_rows player stats) as [e|rows] eqn:E;
      [discriminate|]. intros _ role st Hin.
    apply mapM_forall2 in E. apply mmr_row_ok.
    clear - E Hin. induction E as [|x y l ys Hxy _ IH];
      [contradiction|].
    destruct Hin as [->|Hin]; eauto.
  - intros Hall.
    destruct (mapM_ok (StatsCog.mmr_row player) stats) as (ys & E & _).
    + intros [role st] Hin. apply mmr_row_ok. auto.
    + unfold StatsCog.mmr_rows. now rewrite E.
Qed.

(** The first group that cannot be shown decides the error. *)
Lemma send_roles_stats_first_failure (player : Player.t)
    (ok : list (string * RoleStats.t)) (role : string) (st : RoleStats.t)
    (rest : list (string * RoleStats.t)) (w : world) :
  (forall r g, In (r, g) ok ->
               Py.get r (Player.ratings player) <> None
               /\ RoleStats.games g <> 0) ->
  (Py.get role (Player.ratings player) = None ->
   outcome (StatsCog.send_roles_stats player (ok ++ (role, st) :: rest) w)
   = inl KeyError)
  /\ (Py.get role (Player.ratings player) <> None ->
      RoleStats.games st = 0 ->
      outcome (StatsCog.send_roles_stats player (ok ++ (role, st) :: rest) w)
      = inl ZeroDivisionError).
Proof.
  intros Hok.
  assert (Hok' : forall a, In a ok ->
                           exists b, StatsCog.mmr_row player a = inr b).
  { intros [r g] Hin. apply mmr_row_ok. auto. }
  split.
  - intros Hnone. rewrite send_roles_stats_outcome. unfold StatsCog.mmr_rows.
    rewrite (mapM_first_error _ ok (role, st) rest KeyError Hok');
      [reflexivity|].
    unfold StatsCog.mmr_row, getitem. now rewrite Hnone.
  - intros Hsome Hzero. rewrite send_roles_stats_outcome. unfold StatsCog.mmr_rows.
    rewrite (mapM_first_error _ ok (role, st) rest ZeroDivisionError Hok');
      [reflexivity|].
    unfold StatsCog.mmr_row, getitem.
    destruct (Py.get role (Player.ratings player)); [|contradiction].
    simpl. now rewrite Hzero.
Qed.

Lemma sorted_by_games_desc {A : Type} (games : A -> Z) (rows : list A) :
  StronglySorted (fun a b => a >= b)
    (map games (Py.sorted (fun x => - games x) Z.leb rows))
  /\ Permutation (map games (Py.sorted (fun x => - games x) Z.leb rows))
       (map games rows).
Proof.
  split.
  - apply strongly_sorted_map.
    eapply strongly_sorted_impl;
      [| apply (sorted_strongly_sorted (fun x => - games x) Z.leb)].
    + intros a b H. simpl in H. apply Z.leb_le in H. lia.
    + intros a b. rewrite !Z.leb_le. lia.
    + intros a b c. rewrite !Z.leb_le. lia.
  - apply Permutation_map, sorted_perm.
Qed.

Lemma mmr_rows_games (player : Player.t)
    (stats : list (string * RoleStats.t))
    (rows : list (string * Z * Z * Q)) :
  StatsCog.mmr_rows player stats = inr rows ->
  map (fun x : string * Z * Z * Q => snd (fst x)) rows
  = map (fun kv => RoleStats.games (snd kv)) stats.
Proof.
  intros E. apply mapM_forall2 in E.
  induction E as [|[role st] y l ys Hxy _ IH]; [reflexivity|].
  simpl. rewrite IH. f_equal.
  unfold StatsCog.mmr_row, getitem in Hxy.
  destruct (Py.get role (Player.ratings player)); [|discriminate].
  simpl in Hxy. destruct (StatsCog.winrate _ _); [discriminate|].
  simpl in Hxy. now injection Hxy as <-.
Qed.

(** In the table of the roles the most played role comes first. *)
Lemma send_roles_stats_most_played_first (player : Player.t)
    (stats : list (string * RoleStats.t)) (w : world) :
  outcome (StatsCog.send_roles_stats player stats w) = inr tt ->
  exists tb,
    trace (StatsCog.send_roles_stats player stats w) = [CtxSend (Tabulate tb)]
    /\ StronglySorted (fun a b => a >= b)
         (map Shape.int_of (Shape.column 2 tb))
    /\ Permutation (map Shape.int_of (Shape.column 2 tb))
         (map (fun kv => RoleStats.games (snd kv)) stats).
Proof.
  rewrite send_roles_stats_outcome.
  destruct (StatsCog.mmr_rows player stats) as [e|rows] eqn:E;
    [discriminate|]. intros _.
  unfold StatsCog.send_roles_stats, mbind, lift, ctx_send, emit, trace. rewrite E. simpl.
  eexists. split; [reflexivity|].
  unfold Shape.column. simpl tl. rewrite !map_map.
  rewrite <- (mmr_rows_games player stats rows E).
  assert (Ecol : forall l : list (string * Z * Z * Q),
             map (fun x => Shape.int_of (nth 2 (StatsCog.mmr_cells x) CNone))
               l
             = map (fun x => snd (fst x)) l).
  { intros l. apply map_ext. now intros [[[role rating] games] rate]. }
  rewrite Ecol.
  apply (sorted_by_games_desc (fun x : string * Z * Z * Q => snd (fst x))).
Qed.

(** ** The win rate as a number *)

(** For a group with at least one game and no more wins than games, the
    win rate is a percentage: between 0 and 100, 0 only without a win and
    100 only when every game is won. *)
Theorem winrate_is_a_percentage (wins games : Z) :
  games >= 1 -> 0 <= wins <= games ->
  exists q,
    StatsCog.winrate wins games = inr q
    /\ (0 <= q)%Q /\ (q <= 100)%Q
    /\ ((q == 0)%Q <-> wins = 0)
    /\ ((q == 100)%Q <-> wins = games).
Proof.
  intros Hgames Hwins. rewrite winrate_defined by exact Hgames.
  eexists. split; [reflexivity|].
  destruct games as [|g|g]; try lia.
  unfold Qle, Qeq, Qdiv, Qmult, Qinv, inject_Z. simpl.
  repeat split; intros; nia.
Qed.

Lemma winrate_is_a_percentage_witness :
  exists q,
    StatsCog.winrate 2 3 = inr q /\ (0 <= q)%Q /\ (q <= 100)%Q.
Proof.
  destruct (winrate_is_a_percentage 2 3 ltac:(lia) ltac:(lia))
    as (q & Eq & H0 & H100 & _).
  exists q. auto.
Defined.

Lemma champion_row_ok (get_name : Z -> option string) (id : Z)
    (st : ChampionStats.t) :
  (exists y, StatsCog.champion_row get_name (id, st) = inr y)
  <-> ChampionStats.games st <> 0.
Proof.
  unfold StatsCog.champion_row, StatsCog.winrate.
  destruct (Z.eqb_spec (ChampionStats.games st) 0) as [E|E]; simpl.
  - split; [intros [y [=]] | contradiction].
  - split; [auto | eauto].
Qed.

Lemma champion_rows_games (get_name : Z -> option string)
    (stats : list (Z * ChampionStats.t))
    (rows : list (option string * string * Z * Q)) :
  StatsCog.champion_rows get_name stats = inr rows ->
  map (fun x : option string * string * Z * Q => snd (fst x)) rows
  = map (fun kv => ChampionStats.games (snd kv)) stats.
Proof.
  intros E. apply mapM_forall2 in E.
  induction E as [|[id st] y l ys Hxy _ IH]; [reflexivity|].
  simpl. rewrite IH. f_equal.
  unfold StatsCog.champion_row in Hxy.
  destruct (StatsCog.winrate _ _); [discriminate|].
  simpl in Hxy. now injection Hxy as <-.
Qed.

(** The table of the champions fails on a champion without a game, and on
    nothing else. *)
Lemma send_champions_stats_fails_only_on_zero_games
    (get_name : Z -> option string) (stats : list (Z * ChampionStats.t))
    (w : world) :
  world_after (StatsCog.send_champions_stats get_name stats w) = w
  /\ (outcome (StatsCog.send_champions_stats get_name stats w) = inr tt
      <-> forall id st,
            In (id, st) stats -> ChampionStats.games st <> 0)
  /\ (outcome (StatsCog.send_champions_stats get_name stats w) = inr tt
      \/ (outcome (StatsCog.send_champions_stats get_name stats w)
          = inl ZeroDivisionError
          /\ trace (StatsCog.send_champions_stats get_name stats w) = [])).
Proof.
  split; [|split].
  - unfold StatsCog.send_champions_stats, mbind, lift, ctx_send, emit,
      world_after.
    now destruct (StatsCog.champion_rows get_name stats).
  - rewrite send_champions_stats_outcome. split.
    + destruct (StatsCog.champion_rows get_name stats) as [e|rows] eqn:E;
        [discriminate|]. intros _ id st Hin.
      apply mapM_forall2 in E. apply (champion_row_ok get_name id).
      clear - E Hin. induction E as [|x y l ys Hxy _ IH];
        [contradiction|].
      destruct Hin as [->|Hin]; eauto.
    + intros Hall.
      destruct (mapM_ok (StatsCog.champion_row get_name) stats)
        as (ys & E & _).
      * intros [id st] Hin. apply champion_row_ok. eauto.
      * unfold StatsCog.champion_rows. now rewrite E.
  - unfold StatsCog.send_champions_stats, mbind, lift, ctx_send, emit, outcome,
      trace.
    destruct (StatsCog.champion_rows get_name stats) as [e|rows] eqn:E;
      simpl; [right | now left].
    split; [|reflexivity]. apply mapM_error in E.
    destruct E as ([id st] & _ & Hrow). unfold StatsCog.champion_row in Hrow.
    unfold StatsCog.winrate in Hrow.
    destruct (ChampionStats.games st =? 0); simpl in Hrow;
      [now injection Hrow as <- | discriminate].
Qed.

(** In the table of the champions the most played champion comes
    first. *)
Lemma send_champions_stats_most_played_first (get_name : Z -> option string)
    (stats : list (Z * ChampionStats.t)) (w : world) :
  outcome (StatsCog.send_champions_stats get_name stats w) = inr tt ->
  exists tb,
    trace (StatsCog.send_champions_stats get_name stats w)
    = [CtxSend (Tabulate tb)]
    /\ List.length tb = S (List.length stats)
    /\ StronglySorted (fun a b => a >= b)
         (map Shape.int_of (Shape.column 2 tb))
    /\ Permutation (map Shape.int_of (Shape.column 2 tb))
         (map (fun kv => ChampionStats.games (snd kv)) stats).
Proof.
  rewrite send_champions_stats_outcome.
  destruct (StatsCog.champion_rows get_name stats) as [e|rows] eqn:E;
    [discriminate|]. intros _.
  unfold StatsCog.send_champions_stats, mbind, lift, ctx_send, emit, trace.
  rewrite E. simpl.
  eexists. split; [reflexivity|]. split.
  - simpl. rewrite length_map, sorted_length.
    apply mapM_forall2, Forall2_length in E. now rewrite E.
  - unfold Shape.column. simpl tl. rewrite !map_map.
    rewrite <- (champion_rows_games get_name stats rows E).
    assert (Ecol : forall l : list (option string * string * Z * Q),
               map (fun x =>
                      Shape.int_of (nth 2 (StatsCog.champion_cells x) CNone))
                 l
               = map (fun x => snd (fst x)) l).
    { intros l. apply map_ext. now intros [[[name role] games] rate]. }
    rewrite Ecol.
    apply (sorted_by_games_desc
             (fun x : option string * string * Z * Q => snd (fst x))).
Qed.

(** ** More on the match history *)

Lemma or_unknown_not_blank (name : option string) :
  StatsCog.or_unknown name <> ""%string.
Proof.
  unfold StatsCog.or_unknown. destruct name as [n|]; [|discriminate].
  destruct (String.eqb_spec n "") as [E|E]; [discriminate | exact E].
Qed.

(** [history] shows the games it is given, one row each and in their
    order, and its [Champion] column is never blank: a champion that has
    no name, or an empty one, reads "Unknown". *)
Theorem history_rows_in_order_champion_never_blank
    (get_name : Z -> option string)
    (games_list : list (Game.t * GameParticipant.t)) (w : world) :
  StatsCog.history get_name games_list w
  = (w, [CtxSend (Tabulate (StatsCog.history_table get_name games_list))],
     inr tt)
  /\ Shape.column 0 (StatsCog.history_table get_name games_list)
     = map (fun gp => CInt (Game.id (fst gp))) games_list
  /\ Forall (fun c => exists n, c = CStr n /\ n <> ""%string)
       (Shape.column 3 (StatsCog.history_table get_name games_list))
  /\ forall gp,
       In gp games_list ->
       (get_name (GameParticipant.champion_id (snd gp)) = None
        \/ get_name (GameParticipant.champion_id (snd gp))
           = Some ""%string) ->
       nth 3 (StatsCog.history_row get_name gp) CNone = CStr "Unknown".
Proof.
  split; [reflexivity|].
  unfold Shape.column, StatsCog.history_table. simpl tl.
  rewrite !map_map. split; [|split].
  - apply map_ext. now intros [game participant].
  - apply Forall_forall. intros c Hc. apply in_map_iff in Hc.
    destruct Hc as ([game participant] & <- & _). simpl.
    eexists. split; [reflexivity | apply or_unknown_not_blank].
  - intros [game participant] _ [E|E]; simpl in *; now rewrite E.
Qed.

Lemma history_rows_in_order_champion_never_blank_witness :
  In (Sample.game2, Sample.row2) Sample.games_list
  /\ nth 3 (StatsCog.history_row Sample.get_name
              (Sample.game2, Sample.row2)) CNone
     = CStr "Unknown".
Proof.
  assert (Hin : In (Sample.game2, Sample.row2) Sample.games_list)
    by (right; now left).
  split; [exact Hin|].
  apply (proj2 (proj2 (proj2 (history_rows_in_order_champion_never_blank
                                Sample.get_name Sample.games_list
                                Sample.world0)))
           (Sample.game2, Sample.row2) Hin).
  now left.
Defined.

(** ** More on the query of the games of a player *)

Lemma filter_filter_implied {A : Type} (P Q : A -> bool) (l : list A) :
  (forall x, P x = true -> Q x = true) ->
  filter P (filter Q l) = filter P l.
Proof.
  intros H. induction l as [|x l IH]; [reflexivity|].
  simpl. destruct (Q x) eqn:Eq; simpl; rewrite IH; [reflexivity|].
  destruct (P x) eqn:Ep; [|reflexivity].
  apply H in Ep. congruence.
Qed.

(** A later bound narrows the result of an earlier one: the rows admitted
    are those of the earlier bound that are dated after the later one, in
    the same order. *)
Theorem participants_query_narrows (s : Session.t) (player : Player.t)
    (bound bound' : Time) :
  bound <= bound' ->
  StatsCog.participants_query s player bound'
  = filter (fun gp => Game.date (fst gp) >? bound')
      (StatsCog.participants_query s player bound).
Proof.
  intros Hle. unfold StatsCog.participants_query.
  symmetry. apply filter_filter_implied.
  intros gp. rewrite !Z.gtb_ltb, !Z.ltb_lt. lia.
Qed.

Lemma participants_query_narrows_witness :
  StatsCog.participants_query Sample.store Sample.player7_seeded 150
  = filter (fun gp => Game.date (fst gp) >? 150)
      (StatsCog.participants_query Sample.store Sample.player7_seeded 0).
Proof.
  apply participants_query_narrows. lia.
Defined.

Lemma participants_query_none (s : Session.t) (player : Player.t)
    (bound : Time) :
  (forall g p,
      In g (Session.games s) -> In p (Session.participants s) ->
      GameParticipant.game_id p = Game.id g ->
      GameParticipant.player_id p = Player.discord_id player ->
      Game.date g <= bound) ->
  StatsCog.participants_query s player bound = [].
Proof.
  intros H.
  destruct (StatsCog.participants_query s player bound) as [|[g p] l] eqn:E;
    [reflexivity|].
  assert (Hin : In (g, p) (StatsCog.participants_query s player bound))
    by (rewrite E; now left).
  apply in_participants_query in Hin.
  destruct Hin as (Hg & Hp & Eid & Epl & Hlt).
  specialize (H g p Hg Hp Eid Epl). lia.
Qed.

(** ** More on the rating history *)

Lemma keys_record_game (h : list (string * StatsCog.series))
    (gp : Game.t * GameParticipant.t) :
  Py.keys (StatsCog.record_game h gp)
  = if in_dec string_dec (GameParticipant.role (snd gp)) (Py.keys h)
    then Py.keys h
    else Py.keys h ++ [GameParticipant.role (snd gp)].
Proof.
  destruct gp as [game participant]. unfold StatsCog.record_game. simpl.
  rewrite !keys_update_default.
  destruct (in_dec string_dec (GameParticipant.role participant) (Py.keys h))
    as [Hin|Hout].
  - now destruct (in_dec string_dec (GameParticipant.role participant)
                    (Py.keys h)).
  - destruct (in_dec string_dec (GameParticipant.role participant)
                (Py.keys h ++ [GameParticipant.role participant]))
      as [_|Hno]; [reflexivity|].
    exfalso. apply Hno, in_or_app. right. now left.
Qed.

Lemma first_seen_snoc (l : list string) (r : string) :
  Shape.first_seen (l ++ [r])
  = if in_dec string_dec r (Shape.first_seen l)
    then Shape.first_seen l
    else Shape.first_seen l ++ [r].
Proof.
  unfold Shape.first_seen. rewrite rev_app_distr. simpl.
  destruct (in_dec string_dec r (rev l)) as [Hin|Hout];
    destruct (in_dec string_dec r (rev (nodup string_dec (rev l))))
      as [Hin'|Hout']; try reflexivity.
  - exfalso. apply Hout'. rewrite <- in_rev. now apply nodup_In.
  - exfalso. apply Hout. rewrite <- in_rev in Hin'.
    now apply nodup_In in Hin'.
Qed.

Lemma keys_group_by_role_first_seen
    (rows : list (Game.t * GameParticipant.t)) :
  Py.keys (StatsCog.group_by_role rows)
  = Shape.first_seen (Shape.roles rows).
Proof.
  unfold StatsCog.group_by_role, Shape.roles.
  induction rows as [|gp rows IH] using rev_ind; [reflexivity|].
  rewrite fold_left_app, map_app. simpl.
  now rewrite keys_record_game, first_seen_snoc, IH.
Qed.

(** The roles of the rating history, and so the legend of the figure, are
    the roles of the player's games after the bound in the order in which
    each is first met. *)
Theorem rating_history_roles_in_order_of_first_game (clock : nat -> Time)
    (s : Session.t) (player : Player.t) (bound : Time) (w : world) :
  Rows.rated_for player (StatsCog.participants_query s player bound) ->
  exists h,
    outcome (StatsCog.rating_history clock s player bound w) = inr h
    /\ Py.keys h
       = Shape.first_seen
           (Shape.roles (StatsCog.participants_query s player bound)).
Proof.
  intros Hrated. eexists. split; [now rewrite rating_history_run|].
  now rewrite closed_keys, keys_group_by_role_first_seen.
Qed.

Lemma rating_history_roles_in_order_of_first_game_witness :
  exists h,
    outcome (StatsCog.rating_history Sample.clock
               Sample.store_latest_first Sample.player7_seeded 0
               Sample.world0) = inr h
    /\ Py.keys h = ["support"; "mid"]%string.
Proof.
  assert (Hrated : Rows.rated_for Sample.player7_seeded
                     (StatsCog.participants_query Sample.store_latest_first
                        Sample.player7_seeded 0)).
  { intros game participant Hin. vm_compute in Hin.
    destruct Hin as [[= <- <-]|[[= <- <-]|[[= <- <-]|[]]]]; discriminate. }
  destruct (rating_history_roles_in_order_of_first_game Sample.clock
              Sample.store_latest_first Sample.player7_seeded 0
              Sample.world0 Hrated) as (h & Eh & Hkeys).
  exists h. split; [exact Eh|]. rewrite Hkeys. reflexivity.
Defined.

(** Every curve of the rating history has as many dates as ratings, one
    more than the player's games of the role after the bound, and so two
    points at least. *)
Theorem rating_history_curves_are_paired (clock : nat -> Time)
    (s : Session.t) (player : Player.t) (bound : Time) (w : world) :
  Rows.rated_for player (StatsCog.participants_query s player bound) ->
  exists h,
    outcome (StatsCog.rating_history clock s player bound w) = inr h
    /\ forall role curve,
         In (role, curve) h ->
         List.length (StatsCog.dates curve)
         = List.length (StatsCog.mmr_values curve)
         /\ List.length (StatsCog.dates curve)
            = S (List.length
                   (Rows.of_role role
                      (StatsCog.participants_query s player bound)))
         /\ (2 <= List.length (StatsCog.dates curve))%nat.
Proof.
  intros Hrated. eexists. split; [now rewrite rating_history_run|].
  intros role curve Hin. apply in_closed in Hin.
  destruct Hin as (s0 & k & Hs0 & _ & ->).
  apply in_get in Hs0; [|apply nodup_keys_group_by_role].
  rewrite get_group_by_role in Hs0.
  destruct (Rows.of_role role (StatsCog.participants_query s player bound))
    as [|r rs]; [discriminate|].
  injection Hs0 as <-. simpl.
  unfold Rows.game_dates, Rows.snapshots.
  rewrite !length_app, !length_map. simpl. lia.
Qed.

Lemma rating_history_curves_are_paired_witness :
  exists h,
    outcome (StatsCog.rating_history Sample.clock Sample.store
               Sample.player7_seeded 0 Sample.world0) = inr h
    /\ forall role curve,
         In (role, curve) h ->
         (2 <= List.length (StatsCog.dates curve))%nat.
Proof.
  destruct (rating_history_curves_are_paired Sample.clock Sample.store
              Sample.player7_seeded 0 Sample.world0 sample_rated_for)
    as (h & Eh & Hall).
  exists h. split; [exact Eh|].
  intros role curve Hin. now destruct (Hall role curve Hin) as (_ & _ & H).
Defined.

Lemma plot_roles_cons (clock : nat -> Time)
    (ratings : list (string * PlayerRating.t)) (role : string)
    (s : StatsCog.series) (items : list (string * StatsCog.series))
    (w : world) :
  StatsCog.plot_roles clock ratings ((role, s) :: items) w
  = match Py.get role ratings with
    | None => (Shape.ticked w, [], inl KeyError)
    | Some rating =>
        let s' := StatsCog.append_mmr (PlayerRating.mmr rating)
                    (StatsCog.append_date (clock (tick w)) s) in
        match StatsCog.plot_roles clock ratings items
                {| tick := S (tick w);
                   figure := figure w
                             ++ [(StatsCog.dates s', StatsCog.mmr_values s')]
                |} with
        | (w2, t2, inl e) => (w2, t2, inl e)
        | (w2, t2, inr rest) => (w2, t2, inr ((role, s') :: rest))
        end
    end.
Proof.
  simpl StatsCog.plot_roles.
  unfold mbind, StatsCog.now, lift, getitem, StatsCog.plt_plot, mret.
  destruct (Py.get role ratings) as [rating|]; [|reflexivity].
  simpl.
  destruct (StatsCog.plot_roles clock ratings items _) as [[w2 t2] [e|rest]];
    [reflexivity|].
  now rewrite app_nil_r.
Qed.

Lemma plot_roles_cases (clock : nat -> Time)
    (ratings : list (string * PlayerRating.t))
    (items : list (string * StatsCog.series)) (w : world) :
  trace (StatsCog.plot_roles clock ratings items w) = []
  /\ ((forall role, In role (Py.keys items) ->
                    Py.get role ratings <> None)
      \/ outcome (StatsCog.plot_roles clock ratings items w)
         = inl KeyError).
Proof.
  revert w. induction items as [|[role s] items IH]; intros w.
  - split; [reflexivity|]. left. intros role [].
  - rewrite plot_roles_cons.
    destruct (Py.get role ratings) as [rating|] eqn:Er;
      [|split; [reflexivity | now right]].
    cbv zeta.
    match goal with
    | |- context [StatsCog.plot_roles clock ratings items ?w'] =>
        destruct (IH w') as [Ht Hcases];
        destruct (StatsCog.plot_roles clock ratings items w')
          as [[w2 t2] [e|rest]] eqn:Erest
    end; unfold trace, outcome in *; simpl in *; subst t2.
    + split; [reflexivity|].
      destruct Hcases as [Hall|Hkey]; [|now right].
      left. intros r [<-|Hr]; [congruence | auto].
    + split; [reflexivity|].
      destruct Hcases as [Hall|Hkey]; [|discriminate].
      left. intros r [<-|Hr]; [congruence | auto].
Qed.

Lemma rating_history_cases (clock : nat -> Time) (s : Session.t)
    (player : Player.t) (bound : Time) (w : world) :
  trace (StatsCog.rating_history clock s player bound w)
  = [SessionQuery (GamesOfPlayer (Player.discord_id player) bound)]
  /\ (Rows.rated_for player (StatsCog.participants_query s player bound)
      \/ outcome (StatsCog.rating_history clock s player bound w)
         = inl KeyError).
Proof.
  unfold StatsCog.rating_history, mbind, emit.
  destruct (plot_roles_cases clock (Player.ratings player)
              (StatsCog.group_by_role
                 (StatsCog.participants_query s player bound)) w)
    as [Ht Hcases].
  destruct (StatsCog.plot_roles clock (Player.ratings player) _ w)
    as [[w2 t2] r] eqn:E.
  unfold trace, outcome in *. simpl in *. subst t2.
  split; [reflexivity|].
  destruct Hcases as [Hall|Hkey]; [left | now right].
  intros game participant Hin. apply Hall, keys_group_by_role. eauto.
Qed.

Lemma mmr_history_unfold (dateparser_parse : Time -> string -> option Time)
    (clock : nat -> Time) (s : Session.t) (player : Player.t)
    (date_start : option string) (w : world) (d : Time) :
  dateparser_parse (clock (tick w)) (Shape.bound_text date_start) = Some d ->
  StatsCog.mmr_history dateparser_parse clock s player date_start w
  = match StatsCog.rating_history clock s player d (Shape.ticked w) with
    | (w2, t, inl e) => (w2, t, inl e)
    | (w2, t, inr h) =>
        (w2,
         t ++ [CtxSend (File (figure w2) (Py.keys h) (Shape.title player))],
         inr tt)
    end.
Proof.
  intros Hparse. unfold StatsCog.mmr_history.
  unfold mbind at 1. unfold StatsCog.parse, mbind at 1, StatsCog.now, mret.
  change (match date_start with
          | Some text =>
              if (text =? "")%string then "one month ago"%string else text
          | None => "one month ago"%string
          end) with (Shape.bound_text date_start).
  simpl. rewrite Hparse.
  unfold mbind at 1. fold (Shape.ticked w).
  destruct (StatsCog.rating_history clock s player d (Shape.ticked w))
    as [[w2 t] [e|h]]; [reflexivity|].
  unfold mbind, StatsCog.plt_savefig, ctx_send, emit. simpl.
  reflexivity.
Qed.

(** When the bound can be read and the player has a rating for each role
    played after it, [mmr_history] runs its query and sends one file: the
    lines already in the figure followed by one new line per role, under
    the legend of the roles and a title that speaks of the last month
    whatever the bound. The figure keeps all these lines for the next
    call. *)
Theorem mmr_history_sends_whole_figure
    (dateparser_parse : Time -> string -> option Time)
    (clock : nat -> Time) (s : Session.t) (player : Player.t)
    (date_start : option string) (w : world) (d : Time) :
  dateparser_parse (clock (tick w)) (Shape.bound_text date_start) = Some d ->
  Rows.rated_for player (StatsCog.participants_query s player d) ->
  exists h,
    outcome (StatsCog.rating_history clock s player d (Shape.ticked w))
    = inr h
    /\ StatsCog.mmr_history dateparser_parse clock s player date_start w
       = ({| tick := S (tick w) + List.length (Py.keys h);
             figure := figure w ++ map Rows.line_of h |},
          [SessionQuery (GamesOfPlayer (Player.discord_id player) d);
           CtxSend
             (File (figure w ++ map Rows.line_of h) (Py.keys h)
                (Shape.title player))],
          inr tt).
Proof.
  intros Hparse Hrated.
  rewrite (mmr_history_unfold _ _ _ _ _ _ d Hparse).
  rewrite rating_history_run by exact Hrated.
  eexists. split; [reflexivity|].
  rewrite closed_keys. unfold Py.keys. rewrite length_map. reflexivity.
Qed.

Lemma sample_parse_epoch :
  Sample.dateparser_parse (Sample.clock (tick Sample.world0))
    (Shape.bound_text (Some "epoch"%string)) = Some 0.
Proof. reflexivity. Defined.

Lemma mmr_history_sends_whole_figure_witness :
  exists h,
    outcome (StatsCog.rating_history Sample.clock Sample.store
               Sample.player7_seeded 0 (Shape.ticked Sample.world0))
    = inr h
    /\ trace (StatsCog.mmr_history Sample.dateparser_parse Sample.clock
                Sample.store Sample.player7_seeded (Some "epoch"%string)
                Sample.world0)
       = [SessionQuery (GamesOfPlayer 7 0);
          CtxSend
            (File (map Rows.line_of h) (Py.keys h)
               (Shape.title Sample.player7_seeded))].
Proof.
  destruct (mmr_history_sends_whole_figure Sample.dateparser_parse
              Sample.clock Sample.store Sample.player7_seeded
              (Some "epoch"%string) Sample.world0 0 sample_parse_epoch
              sample_rated_for) as (h & Eh & Erun).
  exists h. split; [exact Eh|]. now rewrite Erun.
Defined.

(** With a bound that can be read, [mmr_history] sends its file exactly
    when the player has a rating for the role of each game after the
    bound. Otherwise it ends on [KeyError] once the query is run and sends
    nothing. *)
Theorem mmr_history_fails_iff_unrated
    (dateparser_parse : Time -> string -> option Time)
    (clock : nat -> Time) (s : Session.t) (player : Player.t)
    (date_start : option string) (w : world) (d : Time) :
  dateparser_parse (clock (tick w)) (Shape.bound_text date_start) = Some d ->
  (outcome (StatsCog.mmr_history dateparser_parse clock s player
              date_start w) = inr tt
   <-> Rows.rated_for player (StatsCog.participants_query s player d))
  /\ (outcome (StatsCog.mmr_history dateparser_parse clock s player
                 date_start w) = inr tt
      \/ (outcome (StatsCog.mmr_history dateparser_parse clock s player
                     date_start w) = inl KeyError
          /\ trace (StatsCog.mmr_history dateparser_parse clock s player
                      date_start w)
             = [SessionQuery
                  (GamesOfPlayer (Player.discord_id player) d)])).
Proof.
  intros Hparse.
  rewrite (mmr_history_unfold _ _ _ _ _ _ d Hparse).
  destruct (rating_history_cases clock s player d (Shape.ticked w))
    as [Ht Hcases].
  destruct (StatsCog.rating_history clock s player d (Shape.ticked w))
    as [[w2 t] [e|h]] eqn:E; unfold trace, outcome in *; simpl in *;
    subst t.
  - destruct Hcases as [Hrated|Hkey].
    + rewrite rating_history_run in E by exact Hrated. discriminate.
    + injection Hkey as ->. split; [|right; auto].
      split; [discriminate|]. intros Hrated.
      rewrite rating_history_run in E by exact Hrated. discriminate.
  - destruct Hcases as [Hrated|Hkey]; [|discriminate].
    split; [tauto | now left].
Qed.

Lemma mmr_history_fails_iff_unrated_witness :
  outcome (StatsCog.mmr_history Sample.dateparser_parse Sample.clock
             Sample.store Sample.player7 (Some "epoch"%string)
             Sample.world0) = inl KeyError
  /\ trace (StatsCog.mmr_history Sample.dateparser_parse Sample.clock
              Sample.store Sample.player7 (Some "epoch"%string)
              Sample.world0)
     = [SessionQuery (GamesOfPlayer 7 0)].
Proof.
  destruct (mmr_history_fails_iff_unrated Sample.dateparser_parse
              Sample.clock Sample.store Sample.player7
              (Some "epoch"%string) Sample.world0 0 sample_parse_epoch)
    as [_ [Hok|Hkey]]; [discriminate Hok | exact Hkey].
Defined.

(** A player without a game after the bound gets no error: [mmr_history]
    sends the figure as it stands, with an empty legend, and draws
    nothing. *)
Theorem mmr_history_empty_window
    (dateparser_parse : Time -> string -> option Time)
    (clock : nat -> Time) (s : Session.t) (player : Player.t)
    (date_start : option string) (w : world) (d : Time) :
  dateparser_parse (clock (tick w)) (Shape.bound_text date_start) = Some d ->
  (forall g p,
      In g (Session.games s) -> In p (Session.participants s) ->
      GameParticipant.game_id p = Game.id g ->
      GameParticipant.player_id p = Player.discord_id player ->
      Game.date g <= d) ->
  StatsCog.mmr_history dateparser_parse clock s player date_start w
  = (Shape.ticked w,
     [SessionQuery (GamesOfPlayer (Player.discord_id player) d);
      CtxSend (File (figure w) [] (Shape.title player))],
     inr tt).
Proof.
  intros Hparse Hnone.
  rewrite (mmr_history_unfold _ _ _ _ _ _ d Hparse).
  unfold StatsCog.rating_history, mbind, emit.
  rewrite (participants_query_none s player d Hnone).
  reflexivity.
Qed.

Lemma mmr_history_empty_window_witness :
  StatsCog.mmr_history Sample.dateparser_parse Sample.clock Sample.store
    Sample.newcomer (Some "epoch"%string) Sample.world0
  = (Shape.ticked Sample.world0,
     [SessionQuery (GamesOfPlayer 99 0);
      CtxSend (File [] [] (Shape.title Sample.newcomer))],
     inr tt).
Proof.
  apply (mmr_history_empty_window Sample.dateparser_parse Sample.clock
           Sample.store Sample.newcomer (Some "epoch"%string)
           Sample.world0 0 sample_parse_epoch).
  intros g p _ [<-|[<-|[<-|[<-|[]]]]] _ Hplayer; discriminate Hplayer.
Defined.

(** ** The statistics commands *)

Section StatsCommands.
Variable get_name : Z -> option string.
Variable dateparser_parse : Time -> string -> option Time.
Variable clock : nat -> Time.
Variable get_roles_stats :
  Player.t -> Session.t -> date_value -> list (string * RoleStats.t).
Variable get_champions_stats :
  Player.t -> Session.t -> date_value -> list (Z * ChampionStats.t).
Variable s : Session.t.
Variable player : Player.t.
Variable date_start : option string.
Variable w : world.

(** The statistics the two commands get from the player. *)
Local Notation "'role_stats'" :=
  (Shape.stats_for get_roles_stats dateparser_parse clock s player
     date_start w) (only parsing).
Local Notation "'champion_stats'" :=
  (Shape.stats_for get_champions_stats dateparser_parse clock s player
     date_start w) (only parsing).

(** C8: when every group of the statistics has at least one game, neither
    [mmr] nor [champions_stats] divides by zero: [champions_stats] sends its
    table, [mmr] never ends on [ZeroDivisionError] and sends its table
    whenever the player has a rating for each role of the statistics. *)
Theorem winrate_never_divides_by_zero :
  (forall role st, In (role, st) role_stats -> RoleStats.games st >= 1) ->
  (forall id st, In (id, st) champion_stats ->
                 ChampionStats.games st >= 1) ->
  outcome (StatsCog.mmr dateparser_parse clock get_roles_stats s player
             date_start w) <> inl ZeroDivisionError
  /\ ((forall role st, In (role, st) role_stats ->
                       Py.get role (Player.ratings player) <> None) ->
      outcome (StatsCog.mmr dateparser_parse clock get_roles_stats s player
                 date_start w) = inr tt)
  /\ outcome (StatsCog.champions_stats get_name dateparser_parse clock
                get_champions_stats s player date_start w) = inr tt.
Proof.
  intros Hroles Hchamps. rewrite mmr_unfold, champions_stats_unfold.
  now apply send_stats_never_divide_by_zero.
Qed.

(** [mmr] sends either its whole table or nothing: when a row cannot be
    built the command ends on [KeyError] or [ZeroDivisionError] before any
    message. It never touches the figure, and reads the clock once when,
    and only when, it is given a text to parse. *)
Theorem mmr_sends_table_or_nothing :
  world_after (StatsCog.mmr dateparser_parse clock get_roles_stats s player
                 date_start w) = Shape.after_resolve date_start w
  /\ figure (world_after (StatsCog.mmr dateparser_parse clock
                            get_roles_stats s player date_start w))
     = figure w
  /\ ((outcome (StatsCog.mmr dateparser_parse clock get_roles_stats s
                  player date_start w) = inr tt
       /\ exists tb,
            trace (StatsCog.mmr dateparser_parse clock get_roles_stats s
                     player date_start w) = [CtxSend (Tabulate tb)]
            /\ List.length tb = S (List.length role_stats))
      \/ (trace (StatsCog.mmr dateparser_parse clock get_roles_stats s
                   player date_start w) = []
          /\ (outcome (StatsCog.mmr dateparser_parse clock get_roles_stats
                         s player date_start w) = inl KeyError
              \/ outcome (StatsCog.mmr dateparser_parse clock
                            get_roles_stats s player date_start w)
                 = inl ZeroDivisionError))).
Proof.
  rewrite mmr_unfold.
  destruct (send_roles_stats_table_or_nothing player role_stats
              (Shape.after_resolve date_start w)) as [Hw Hcases].
  rewrite Hw. split; [reflexivity|]. split; [|exact Hcases].
  unfold Shape.after_resolve. destruct date_start as [text|]; [|reflexivity].
  now destruct (text =? "")%string.
Qed.

(** [mmr] sends its table exactly when every role of the statistics has a
    rating of the player and at least one game. *)
Theorem mmr_succeeds_iff :
  outcome (StatsCog.mmr dateparser_parse clock get_roles_stats s player
             date_start w) = inr tt
  <-> forall role st,
        In (role, st) role_stats ->
        Py.get role (Player.ratings player) <> None
        /\ RoleStats.games st <> 0.
Proof. rewrite mmr_unfold. apply send_roles_stats_succeeds_iff. Qed.

(** The first group of the statistics that cannot be shown decides how
    [mmr] ends: on [KeyError] when the player has no rating for its role,
    whatever its games, on [ZeroDivisionError] when the rating is there
    and the games are none. *)
Theorem mmr_first_failure_decides (ok : list (string * RoleStats.t))
    (role : string) (st : RoleStats.t)
    (rest : list (string * RoleStats.t)) :
  role_stats = ok ++ (role, st) :: rest ->
  (forall r g, In (r, g) ok ->
               Py.get r (Player.ratings player) <> None
               /\ RoleStats.games g <> 0) ->
  (Py.get role (Player.ratings player) = None ->
   outcome (StatsCog.mmr dateparser_parse clock get_roles_stats s player
              date_start w) = inl KeyError)
  /\ (Py.get role (Player.ratings player) <> None ->
      RoleStats.games st = 0 ->
      outcome (StatsCog.mmr dateparser_parse clock get_roles_stats s player
                 date_start w) = inl ZeroDivisionError).
Proof.
  intros Estats Hok. rewrite mmr_unfold, Estats.
  now apply send_roles_stats_first_failure.
Qed.

(** When [mmr] sends its table, the [Games] column holds the games of the
    groups of the statistics, the most played role first. *)
Theorem mmr_most_played_first :
  outcome (StatsCog.mmr dateparser_parse clock get_roles_stats s player
             date_start w) = inr tt ->
  exists tb,
    trace (StatsCog.mmr dateparser_parse clock get_roles_stats s player
             date_start w) = [CtxSend (Tabulate tb)]
    /\ StronglySorted (fun a b => a >= b)
         (map Shape.int_of (Shape.column 2 tb))
    /\ Permutation (map Shape.int_of (Shape.column 2 tb))
         (map (fun kv => RoleStats.games (snd kv)) role_stats).
Proof. rewrite mmr_unfold. apply send_roles_stats_most_played_first. Qed.

(** [champions_stats] fails in one way only: it sends its table exactly
    when every champion of the statistics has at least one game, and
    otherwise ends on [ZeroDivisionError] before any message. A champion
    without a name is no failure. The command never touches the figure,
    and reads the clock once when, and only when, it is given a text to
    parse. *)
Theorem champions_stats_fails_only_on_zero_games :
  world_after (StatsCog.champions_stats get_name dateparser_parse clock
                 get_champions_stats s player date_start w)
  = Shape.after_resolve date_start w
  /\ figure (world_after (StatsCog.champions_stats get_name dateparser_parse
                            clock get_champions_stats s player date_start
                            w))
     = figure w
  /\ (outcome (StatsCog.champions_stats get_name dateparser_parse clock
                 get_champions_stats s player date_start w) = inr tt
      <-> forall id st,
            In (id, st) champion_stats -> ChampionStats.games st <> 0)
  /\ (outcome (StatsCog.champions_stats get_name dateparser_parse clock
                 get_champions_stats s player date_start w) = inr tt
      \/ (outcome (StatsCog.champions_stats get_name dateparser_parse clock
                     get_champions_stats s player date_start w)
          = inl ZeroDivisionError
          /\ trace (StatsCog.champions_stats get_name dateparser_parse
                      clock get_champions_stats s player date_start w)
             = [])).
Proof.
  rewrite champions_stats_unfold.
  destruct (send_champions_stats_fails_only_on_zero_games get_name
              champion_stats (Shape.after_resolve date_start w))
    as (Hw & Hiff & Hcases).
  rewrite Hw. split; [reflexivity|].
  split; [|split; [exact Hiff | exact Hcases]].
  unfold Shape.after_resolve. destruct date_start as [text|]; [|reflexivity].
  now destruct (text =? "")%string.
Qed.

(** When [champions_stats] sends its table, the [Games] column holds the
    games of the champions of the statistics, the most played first. *)
Theorem champions_stats_most_played_first :
  outcome (StatsCog.champions_stats get_name dateparser_parse clock
             get_champions_stats s player date_start w) = inr tt ->
  exists tb,
    trace (StatsCog.champions_stats get_name dateparser_parse clock
             get_champions_stats s player date_start w)
    = [CtxSend (Tabulate tb)]
    /\ List.length tb = S (List.length champion_stats)
    /\ StronglySorted (fun a b => a >= b)
         (map Shape.int_of (Shape.column 2 tb))
    /\ Permutation (map Shape.int_of (Shape.column 2 tb))
         (map (fun kv => ChampionStats.games (snd kv)) champion_stats).
Proof.
  rewrite champions_stats_unfold.
  apply send_champions_stats_most_played_first.
Qed.

End StatsCommands.

Lemma sample_role_stats_played :
  forall role st,
    In (role, st)
       (Shape.stats_for Sample.get_roles_stats Sample.dateparser_parse
          Sample.clock Sample.store Sample.player7_support_mid
          (Some "epoch"%string) Sample.world0) ->
    RoleStats.games st >= 1.
Proof.
  intros role st [[= <- <-]|[[= <- <-]|[]]]; simpl; lia.
Defined.

Lemma sample_role_stats_rated :
  forall role st,
    In (role, st)
       (Shape.stats_for Sample.get_roles_stats Sample.dateparser_parse
          Sample.clock Sample.store Sample.player7_support_mid
          (Some "epoch"%string) Sample.world0) ->
    Py.get role (Player.ratings Sample.player7_support_mid) <> None.
Proof.
  intros role st [[= <- <-]|[[= <- <-]|[]]]; simpl; discriminate.
Defined.

Lemma sample_champion_stats_played :
  forall id st,
    In (id, st)
       (Shape.stats_for Sample.get_champions_stats Sample.dateparser_parse
          Sample.clock Sample.store Sample.player7_support_mid
          (Some "epoch"%string) Sample.world0) ->
    ChampionStats.games st >= 1.
Proof.
  intros id st [[= <- <-]|[]]; simpl; lia.
Defined.

Lemma winrate_never_divides_by_zero_witness :
  outcome (StatsCog.mmr Sample.dateparser_parse Sample.clock
             Sample.get_roles_stats Sample.store
             Sample.player7_support_mid (Some "epoch"%string)
             Sample.world0) = inr tt
  /\ outcome (StatsCog.champions_stats Sample.get_name
                Sample.dateparser_parse Sample.clock
                Sample.get_champions_stats Sample.store
                Sample.player7_support_mid (Some "epoch"%string)
                Sample.world0) = inr tt.
Proof.
  destruct (winrate_never_divides_by_zero Sample.get_name
              Sample.dateparser_parse Sample.clock Sample.get_roles_stats
              Sample.get_champions_stats Sample.store
              Sample.player7_support_mid (Some "epoch"%string)
              Sample.world0 sample_role_stats_played
              sample_champion_stats_played)
    as (_ & Hmmr & Hchampions).
  split; [exact (Hmmr sample_role_stats_rated) | exact Hchampions].
Defined.

Lemma mmr_first_failure_decides_witness :
  outcome (StatsCog.mmr Sample.dateparser_parse Sample.clock
             Sample.get_roles_stats_unrated Sample.store
             Sample.player7_support_mid None Sample.world0)
  = inl KeyError.
Proof.
  apply (proj1 (mmr_first_failure_decides Sample.dateparser_parse
                  Sample.clock Sample.get_roles_stats_unrated Sample.store
                  Sample.player7_support_mid None Sample.world0
                  [("support"%string,
                    {| RoleStats.games := 3; RoleStats.wins := 2 |})]
                  "top"
                  {| RoleStats.games := 0; RoleStats.wins := 0 |}
                  [("mid"%string,
                    {| RoleStats.games := 0; RoleStats.wins := 0 |})]
                  eq_refl
                  ltac:(intros r g [[= <- <-]|[]]; split;
                        [discriminate | simpl; lia]))).
  reflexivity.
Defined.

Lemma mmr_most_played_first_witness :
  exists tb,
    trace (StatsCog.mmr Sample.dateparser_parse Sample.clock
             Sample.get_roles_stats Sample.store
             Sample.player7_support_mid (Some "epoch"%string)
             Sample.world0) = [CtxSend (Tabulate tb)]
    /\ map Shape.int_of (Shape.column 2 tb) = [3; 2].
Proof.
  destruct (mmr_most_played_first Sample.dateparser_parse Sample.clock
              Sample.get_roles_stats Sample.store
              Sample.player7_support_mid (Some "epoch"%string)
              Sample.world0 eq_refl)
    as (tb & Etb & _).
  exists tb. split; [exact Etb|].
  vm_compute in Etb. injection Etb as <-. reflexivity.
Defined.

Lemma champions_stats_most_played_first_witness :
  exists tb,
    trace (StatsCog.champions_stats Sample.get_name
             Sample.dateparser_parse Sample.clock
             Sample.get_champions_stats Sample.store
             Sample.player7_support_mid (Some "epoch"%string)
             Sample.world0)
    = [CtxSend (Tabulate tb)]
    /\ List.length tb = 2%nat.
Proof.
  destruct (champions_stats_most_played_first Sample.get_name
              Sample.dateparser_parse Sample.clock
              Sample.get_champions_stats Sample.store
              Sample.player7_support_mid (Some "epoch"%string)
              Sample.world0 eq_refl)
    as (tb & Etb & Hlen & _).
  exists tb. auto.
Defined.

(** ** What the answers depend on, command by command *)

Lemma bound_of_resolved (dateparser_parse : Time -> string -> option Time)
    (clock1 clock2 : nat -> Time) (date_start : option string)
    (w1 w2 : world) :
  Shape.resolved dateparser_parse clock1 date_start w1
  = Shape.resolved dateparser_parse clock2 date_start w2 ->
  forall A (get_stats : Player.t -> Session.t -> date_value -> A) s player,
    Shape.stats_for get_stats dateparser_parse clock1 s player date_start w1
    = Shape.stats_for get_stats dateparser_parse clock2 s player date_start
        w2.
Proof.
  intros E A get_stats s player. unfold Shape.stats_for. now rewrite E.
Qed.

Lemma send_roles_stats_any_world (player : Player.t)
    (stats : list (string * RoleStats.t)) (w1 w2 : world) :
  trace (StatsCog.send_roles_stats player stats w1)
  = trace (StatsCog.send_roles_stats player stats w2)
  /\ outcome (StatsCog.send_roles_stats player stats w1)
     = outcome (StatsCog.send_roles_stats player stats w2).
Proof.
  unfold StatsCog.send_roles_stats, mbind, lift, trace, outcome.
  now destruct (StatsCog.mmr_rows player stats).
Qed.

Lemma send_champions_stats_any_world (get_name : Z -> option string)
    (stats : list (Z * ChampionStats.t)) (w1 w2 : world) :
  trace (StatsCog.send_champions_stats get_name stats w1)
  = trace (StatsCog.send_champions_stats get_name stats w2)
  /\ outcome (StatsCog.send_champions_stats get_name stats w1)
     = outcome (StatsCog.send_champions_stats get_name stats w2).
Proof.
  unfold StatsCog.send_champions_stats, mbind, lift, trace, outcome.
  now destruct (StatsCog.champion_rows get_name stats).
Qed.

(** C9, as the code has it. [history], [rank] and [ranking] send the same
    table at any time. [mmr] and [champions_stats] depend on the time of
    the call through the date their [date_start] resolves to, and on
    nothing else of the world: two runs that resolve it alike send the
    same. [mmr_history] depends on the time through its bound, which
    without a [date_start] is one month before the call, and through the
    date of the last point of each curve: two runs whose bound resolves to
    the same date send the same query and a file of the same legend and
    title, and their curves agree on every point but the date of the
    last, altogether when they read the same times. *)
Theorem answers_depend_on_store_arguments_and_clock :
  (forall get_name games_list w1 w2,
      exists tb,
        StatsCog.history get_name games_list w1
        = (w1, [CtxSend (Tabulate tb)], inr tt)
        /\ StatsCog.history get_name games_list w2
           = (w2, [CtxSend (Tabulate tb)], inr tt))
  /\ (forall get_rank player w1 w2,
         exists tb,
           StatsCog.rank get_rank player w1
           = (w1, [CtxSend (Tabulate tb)], inr tt)
           /\ StatsCog.rank get_rank player w2
              = (w2, [CtxSend (Tabulate tb)], inr tt))
  /\ (forall player_name get_games extractOne roles_list s role w1 w2,
         exists reply tb,
           StatsCog.ranking player_name get_games extractOne roles_list s
             role w1
           = (w1,
              reply
                ++ [SessionQuery
                      (RatingsOfRole (fst (extractOne role roles_list)));
                    CtxSend (Tabulate tb)],
              inr tt)
           /\ StatsCog.ranking player_name get_games extractOne roles_list
                s role w2
              = (w2,
                 reply
                   ++ [SessionQuery
                         (RatingsOfRole (fst (extractOne role roles_list)));
                       CtxSend (Tabulate tb)],
                 inr tt))
  /\ (forall dateparser_parse clock1 clock2 get_roles_stats s player
             date_start w1 w2,
         Shape.resolved dateparser_parse clock1 date_start w1
         = Shape.resolved dateparser_parse clock2 date_start w2 ->
         trace (StatsCog.mmr dateparser_parse clock1 get_roles_stats s
                  player date_start w1)
         = trace (StatsCog.mmr dateparser_parse clock2 get_roles_stats s
                    player date_start w2)
         /\ outcome (StatsCog.mmr dateparser_parse clock1 get_roles_stats s
                       player date_start w1)
            = outcome (StatsCog.mmr dateparser_parse clock2 get_roles_stats
                         s player date_start w2)
         /\ (outcome (StatsCog.mmr dateparser_parse clock1 get_roles_stats
                        s player date_start w1) = inr tt ->
             exists tb,
               trace (StatsCog.mmr dateparser_parse clock1 get_roles_stats
                        s player date_start w1)
               = [CtxSend (Tabulate tb)]))
  /\ (forall get_name dateparser_parse clock1 clock2 get_champions_stats s
             player date_start w1 w2,
         Shape.resolved dateparser_parse clock1 date_start w1
         = Shape.resolved dateparser_parse clock2 date_start w2 ->
         trace (StatsCog.champions_stats get_name dateparser_parse clock1
                  get_champions_stats s player date_start w1)
         = trace (StatsCog.champions_stats get_name dateparser_parse clock2
                    get_champions_stats s player date_start w2)
         /\ outcome (StatsCog.champions_stats get_name dateparser_parse
                       clock1 get_champions_stats s player date_start w1)
            = outcome (StatsCog.champions_stats get_name dateparser_parse
                         clock2 get_champions_stats s player date_start w2)
         /\ (outcome (StatsCog.champions_stats get_name dateparser_parse
                        clock1 get_champions_stats s player date_start w1)
             = inr tt ->
             exists tb,
               trace (StatsCog.champions_stats get_name dateparser_parse
                        clock1 get_champions_stats s player date_start w1)
               = [CtxSend (Tabulate tb)]))
  /\ (forall dateparser_parse clock1 clock2 s player date_start w1 w2 d,
         dateparser_parse (clock1 (tick w1)) (Shape.bound_text date_start)
         = Some d ->
         dateparser_parse (clock2 (tick w2)) (Shape.bound_text date_start)
         = Some d ->
         Rows.rated_for player (StatsCog.participants_query s player d) ->
         exists h1 h2 lines1 lines2,
           outcome (StatsCog.rating_history clock1 s player d
                      (Shape.ticked w1)) = inr h1
           /\ outcome (StatsCog.rating_history clock2 s player d
                         (Shape.ticked w2)) = inr h2
           /\ trace (StatsCog.mmr_history dateparser_parse clock1 s player
                       date_start w1)
              = [SessionQuery (GamesOfPlayer (Player.discord_id player) d);
                 CtxSend (File lines1 (Py.keys h1) (Shape.title player))]
           /\ trace (StatsCog.mmr_history dateparser_parse clock2 s player
                       date_start w2)
              = [SessionQuery (GamesOfPlayer (Player.discord_id player) d);
                 CtxSend (File lines2 (Py.keys h2) (Shape.title player))]
           /\ outcome (StatsCog.mmr_history dateparser_parse clock1 s
                         player date_start w1) = inr tt
           /\ outcome (StatsCog.mmr_history dateparser_parse clock2 s
                         player date_start w2) = inr tt
           /\ (figure w1 = [] -> lines1 = map Rows.line_of h1)
           /\ (figure w2 = [] -> lines2 = map Rows.line_of h2)
           /\ Py.keys h1 = Py.keys h2
           /\ map Rows.timeless h1 = map Rows.timeless h2
           /\ ((forall j,
                   clock1 (S (tick w1) + j)%nat
                   = clock2 (S (tick w2) + j)%nat) ->
               h1 = h2)).
Proof.
  split; [|split; [|split; [|split; [|split]]]].
  - intros. eexists. split; reflexivity.
  - intros. eexists. split; reflexivity.
  - intros. unfold StatsCog.ranking.
    destruct (extractOne role roles_list) as [clean_role score]. simpl fst.
    destruct (score <? 80).
    + exists [CtxSend role_not_understood]. eexists. split; reflexivity.
    + exists []. eexists. split; reflexivity.
  - intros dateparser_parse clock1 clock2 get_roles_stats s player
      date_start w1 w2 E.
    rewrite !mmr_unfold.
    rewrite (bound_of_resolved _ _ _ _ _ _ E _ get_roles_stats s player).
    destruct (send_roles_stats_any_world player
                (Shape.stats_for get_roles_stats dateparser_parse clock2 s
                   player date_start w2)
                (Shape.after_resolve date_start w1)
                (Shape.after_resolve date_start w2)) as [Ht Ho].
    split; [exact Ht|]. split; [exact Ho|]. intros Hok.
    destruct (send_roles_stats_most_played_first player _ _ Hok)
      as (tb & Etb & _).
    eauto.
  - intros get_name dateparser_parse clock1 clock2 get_champions_stats s
      player date_start w1 w2 E.
    rewrite !champions_stats_unfold.
    rewrite (bound_of_resolved _ _ _ _ _ _ E _ get_champions_stats s player).
    destruct (send_champions_stats_any_world get_name
                (Shape.stats_for get_champions_stats dateparser_parse clock2
                   s player date_start w2)
                (Shape.after_resolve date_start w1)
                (Shape.after_resolve date_start w2)) as [Ht Ho].
    split; [exact Ht|]. split; [exact Ho|]. intros Hok.
    destruct (send_champions_stats_most_played_first get_name _ _ Hok)
      as (tb & Etb & _).
    eauto.
  - intros dateparser_parse clock1 clock2 s player date_start w1 w2 d
      Hparse1 Hparse2 Hrated.
    rewrite (mmr_history_unfold _ _ _ _ _ _ d Hparse1).
    rewrite (mmr_history_unfold _ _ _ _ _ _ d Hparse2).
    rewrite !rating_history_run by exact Hrated.
    do 4 eexists.
    split; [reflexivity|]. split; [reflexivity|].
    split; [reflexivity|]. split; [reflexivity|].
    split; [reflexivity|]. split; [reflexivity|].
    split; [intros E; cbn [figure Shape.ticked]; now rewrite E|].
    split; [intros E; cbn [figure Shape.ticked]; now rewrite E|].
    split; [now rewrite !closed_keys|].
    split; [now rewrite !closed_timeless|].
    intros Hclock. apply closed_ext. exact Hclock.
Qed.

Lemma sample_parse_epoch_later :
  Sample.dateparser_parse ((fun _ : nat => 5000) (tick Sample.world0))
    (Shape.bound_text (Some "epoch"%string)) = Some 0.
Proof. reflexivity. Defined.

Lemma answers_depend_on_store_arguments_and_clock_witness :
  (exists h1 h2 lines1 lines2,
      trace (StatsCog.mmr_history Sample.dateparser_parse Sample.clock
               Sample.store Sample.player7_seeded (Some "epoch"%string)
               Sample.world0)
      = [SessionQuery (GamesOfPlayer 7 0);
         CtxSend
           (File lines1 (Py.keys h1) (Shape.title Sample.player7_seeded))]
      /\ trace (StatsCog.mmr_history Sample.dateparser_parse
                  (fun _ => 5000) Sample.store Sample.player7_seeded
                  (Some "epoch"%string) Sample.world0)
         = [SessionQuery (GamesOfPlayer 7 0);
            CtxSend
              (File lines2 (Py.keys h2)
                 (Shape.title Sample.player7_seeded))]
      /\ lines1 = map Rows.line_of h1
      /\ lines2 = map Rows.line_of h2
      /\ map Rows.timeless h1 = map Rows.timeless h2)
  /\ trace (StatsCog.mmr Sample.dateparser_parse Sample.clock
              Sample.get_roles_stats Sample.store
              Sample.player7_support_mid (Some "epoch"%string)
              Sample.world0)
     = trace (StatsCog.mmr Sample.dateparser_parse (fun _ => 5000)
                Sample.get_roles_stats Sample.store
                Sample.player7_support_mid (Some "epoch"%string)
                Sample.world0)
  /\ trace (StatsCog.champions_stats Sample.get_name
              Sample.dateparser_parse Sample.clock
              Sample.get_champions_stats Sample.store
              Sample.player7_support_mid (Some "epoch"%string)
              Sample.world0)
     = trace (StatsCog.champions_stats Sample.get_name
                Sample.dateparser_parse (fun _ => 5000)
                Sample.get_champions_stats Sample.store
                Sample.player7_support_mid (Some "epoch"%string)
                Sample.world0).
Proof.
  destruct answers_depend_on_store_arguments_and_clock
    as (_ & _ & _ & Hmmr & Hchampions & Hhistory).
  split; [|split].
  - destruct (Hhistory Sample.dateparser_parse Sample.clock
                (fun _ => 5000) Sample.store Sample.player7_seeded
                (Some "epoch"%string) Sample.world0 Sample.world0 0
                sample_parse_epoch sample_parse_epoch_later
                sample_rated_for)
      as (h1 & h2 & lines1 & lines2 & _ & _ & Et1 & Et2 & _ & _ & Hl1 & Hl2
          & _ & Htimeless & _).
    exists h1, h2, lines1, lines2.
    split; [exact Et1|]. split; [exact Et2|].
    split; [exact (Hl1 eq_refl)|]. split; [exact (Hl2 eq_refl)|].
    exact Htimeless.
  - exact (proj1 (Hmmr Sample.dateparser_parse Sample.clock
                    (fun _ => 5000) Sample.get_roles_stats Sample.store
                    Sample.player7_support_mid (Some "epoch"%string)
                    Sample.world0 Sample.world0 eq_refl)).
  - exact (proj1 (Hchampions Sample.get_name Sample.dateparser_parse
                    Sample.clock (fun _ => 5000)
                    Sample.get_champions_stats Sample.store
                    Sample.player7_support_mid (Some "epoch"%string)
                    Sample.world0 Sample.world0 eq_refl)).
Defined.
